(** * AES Integer Counter Mode over OpenSSL (crypto/cipher/aes_icm_ossl.c)

    A shallow embedding of the ICM cipher engine of libsrtp and the
    properties of its allocation, key set-up, IV derivation, keystream
    processing and teardown.

    The C functions mutate structures through pointers; here they run in
    a state-and-failure monad over a [world] (heap of structures, outcome
    of the allocator, log of the calls made to external code).  [None]
    stands for undefined behaviour of the C program (a dangling or null
    dereference, a read past the end of a caller's buffer).

    The file models the default build, in which SRTP_NO_AES192 is not
    defined (with the macro defined the condition in
    srtp_aes_icm_openssl_context_init ends in a dangling [||]). *)

From Stdlib Require Import ZArith List Bool String Ascii Lia.
From stdpp Require Import base option list.
Import ListNotations.
Local Open Scope Z_scope.

(** ** Octets and blocks *)

(** An octet is an integer in [0, 256). *)
Abbreviation uint8_t := Z (only parsing).

(** A pointer into the heap of structures; [None] is NULL. *)
Abbreviation ptr := (option nat) (only parsing).
Abbreviation NULL := (@None nat).

(** Modelled from the spec: the v128_t block of datatypes.h, seen through
    its octet view v8: 16 octets. *)
Abbreviation v128_t := (list Z) (only parsing).

(** Modelled from the spec: the v256_t key storage of datatypes.h, 32
    octets, also addressed as two consecutive 16-octet slots. *)
Abbreviation v256_t := (list Z) (only parsing).

(** Modelled from the spec: key sizes and salt size of the three key-size
    classes (aes_icm_ossl.h / crypto_types.h). *)
Definition SRTP_SALT_SIZE : Z := 14.
Definition SRTP_AES_128_KEYSIZE : Z := 16.
Definition SRTP_AES_192_KEYSIZE : Z := 24.
Definition SRTP_AES_256_KEYSIZE : Z := 32.
Definition SRTP_AES_128_KEYSIZE_WSALT : Z := SRTP_AES_128_KEYSIZE + SRTP_SALT_SIZE.
Definition SRTP_AES_192_KEYSIZE_WSALT : Z := SRTP_AES_192_KEYSIZE + SRTP_SALT_SIZE.
Definition SRTP_AES_256_KEYSIZE_WSALT : Z := SRTP_AES_256_KEYSIZE + SRTP_SALT_SIZE.

(** Modelled from the spec: v128_set_to_zero of datatypes.h. *)
Definition v128_set_to_zero : v128_t := replicate 16 0.

(** [octets s off n]: the [n] octets of the buffer [s] starting at offset
    [off]; undefined when they are not all inside the buffer. *)
Definition octets (s : list uint8_t) (off : Z) (n : nat) : option (list uint8_t) :=
  if (0 <=? off) && (off + Z.of_nat n <=? Z.of_nat (length s))
  then Some (take n (drop (Z.to_nat off) s))
  else None.

(** Modelled from the spec: v128_copy_octet_string of datatypes.h reads 16
    octets at [s + off]. *)
Definition v128_copy_octet_string (s : list uint8_t) (off : Z) : option v128_t :=
  octets s off 16.

(** Modelled from the spec: v128_xor of datatypes.h, the bitwise exclusive
    or of two blocks. *)
Definition v128_xor (a b : v128_t) : v128_t := zip_with Z.lxor a b.

(** memcpy into the start of an array: the first [length src] octets of
    [dst] are replaced. *)
Definition memcpy (dst src : list uint8_t) : list uint8_t :=
  src ++ drop (length src) dst.

(** The same at octet offset [off] of [dst]. *)
Definition memcpy_at (dst : list uint8_t) (off : nat) (src : list uint8_t) : list uint8_t :=
  take off dst ++ memcpy (drop off dst) src.

(** Conversions between [unsigned int] and [int] (32 bits). *)
Definition int_of_uint (u : Z) : Z :=
  let m := u mod 2 ^ 32 in if m <? 2 ^ 31 then m else m - 2 ^ 32.
Definition uint_of_int (i : Z) : Z := i mod 2 ^ 32.

(** ** Status codes (srtp_err_status_t), those this file returns *)

Inductive srtp_err_status_t : Type :=
| srtp_err_status_ok
| srtp_err_status_fail
| srtp_err_status_bad_param
| srtp_err_status_alloc_fail
| srtp_err_status_cipher_fail.

Global Instance srtp_err_status_eq_dec : EqDecision srtp_err_status_t.
Proof. solve_decision. Defined.

(** ** External code *)

(** The three OpenSSL cipher descriptors the engine selects from. *)
Inductive EVP_CIPHER : Type :=
| EVP_aes_128_ctr
| EVP_aes_192_ctr
| EVP_aes_256_ctr.

(** What the engine uses from outside this file: the algorithm
    identifiers of crypto_types.h, whose values the engine only stores,
    and OpenSSL's EVP interface.  A function that updates its
    EVP_CIPHER_CTX in place returns the new value; the [bool] is the C
    return value read as a truth value.  EVP_EncryptUpdate and
    EVP_EncryptFinal_ex receive the caller's buffer and return it as they
    leave it, with the output length. *)
Class Externals : Type := {
  SRTP_AES_ICM : Z;
  SRTP_AES_128_ICM : Z;
  SRTP_AES_192_ICM : Z;
  SRTP_AES_256_ICM : Z;
  EVP_CIPHER_CTX : Type;
  (** the EVP_CIPHER_CTX whose octets are all zero *)
  EVP_CIPHER_CTX_zero : EVP_CIPHER_CTX;
  EVP_CIPHER_CTX_init : EVP_CIPHER_CTX -> EVP_CIPHER_CTX;
  EVP_CIPHER_CTX_cleanup : EVP_CIPHER_CTX -> EVP_CIPHER_CTX;
  EVP_EncryptInit_ex :
    EVP_CIPHER_CTX -> EVP_CIPHER -> list uint8_t -> list uint8_t ->
    bool * EVP_CIPHER_CTX;
  EVP_EncryptUpdate :
    EVP_CIPHER_CTX -> list uint8_t -> Z ->
    bool * EVP_CIPHER_CTX * list uint8_t * Z;
  EVP_EncryptFinal_ex :
    EVP_CIPHER_CTX -> list uint8_t ->
    bool * EVP_CIPHER_CTX * list uint8_t * Z
}.

(** Addresses of the three function tables defined at the end of the
    file; a [type] field holds one of them or NULL. *)
Inductive srtp_cipher_type_ptr : Type :=
| type_NULL
| addr_srtp_aes_icm
| addr_srtp_aes_icm_192
| addr_srtp_aes_icm_256.

Section Engine.
Context `{Ext : Externals}.

(** ** Structures *)

(** srtp_aes_icm_ctx_t (aes_icm_ossl.h). *)
Record srtp_aes_icm_ctx_t : Type := {
  counter : v128_t;
  offset : v128_t;
  key : v256_t;
  key_size : Z;
  ctx : EVP_CIPHER_CTX
}.

(** srtp_cipher_t (cipher.h). *)
Record srtp_cipher_t : Type := {
  type : srtp_cipher_type_ptr;
  state : ptr;
  key_len : Z;
  algorithm : Z
}.

Definition set_counter (v : v128_t) (c : srtp_aes_icm_ctx_t) : srtp_aes_icm_ctx_t :=
  {| counter := v; offset := offset c; key := key c;
     key_size := key_size c; ctx := ctx c |}.
Definition set_offset (v : v128_t) (c : srtp_aes_icm_ctx_t) : srtp_aes_icm_ctx_t :=
  {| counter := counter c; offset := v; key := key c;
     key_size := key_size c; ctx := ctx c |}.
Definition set_key (v : v256_t) (c : srtp_aes_icm_ctx_t) : srtp_aes_icm_ctx_t :=
  {| counter := counter c; offset := offset c; key := v;
     key_size := key_size c; ctx := ctx c |}.
Definition set_key_size (n : Z) (c : srtp_aes_icm_ctx_t) : srtp_aes_icm_ctx_t :=
  {| counter := counter c; offset := offset c; key := key c;
     key_size := n; ctx := ctx c |}.
Definition set_ctx (h : EVP_CIPHER_CTX) (c : srtp_aes_icm_ctx_t) : srtp_aes_icm_ctx_t :=
  {| counter := counter c; offset := offset c; key := key c;
     key_size := key_size c; ctx := h |}.

Definition set_type (t : srtp_cipher_type_ptr) (c : srtp_cipher_t) : srtp_cipher_t :=
  {| type := t; state := state c; key_len := key_len c; algorithm := algorithm c |}.
Definition set_state (p : ptr) (c : srtp_cipher_t) : srtp_cipher_t :=
  {| type := type c; state := p; key_len := key_len c; algorithm := algorithm c |}.
Definition set_key_len (n : Z) (c : srtp_cipher_t) : srtp_cipher_t :=
  {| type := type c; state := state c; key_len := n; algorithm := algorithm c |}.
Definition set_algorithm (n : Z) (c : srtp_cipher_t) : srtp_cipher_t :=
  {| type := type c; state := state c; key_len := key_len c; algorithm := n |}.

(** The structures after memset(p, 0, sizeof ...). *)
Definition zero_icm : srtp_aes_icm_ctx_t :=
  {| counter := replicate 16 0; offset := replicate 16 0;
     key := replicate 32 0; key_size := 0; ctx := EVP_CIPHER_CTX_zero |}.
Definition zero_cipher : srtp_cipher_t :=
  {| type := type_NULL; state := NULL; key_len := 0; algorithm := 0 |}.

(** ** The world *)

Inductive object : Type :=
| Uninit
| Obj_cipher (c : srtp_cipher_t)
| Obj_icm (i : srtp_aes_icm_ctx_t).

(** A heap cell keeps its last contents once freed ([live = false]), as
    released memory does; a freed cell is never read or written again. *)
Record cell : Type := { live : bool; obj : object }.

(** Calls to external code with an effect outside the structures. *)
Inductive event : Type :=
| Ev_srtp_crypto_alloc (result : ptr)
| Ev_srtp_crypto_free (p : nat)
| Ev_octet_string_set_to_zero (p : nat)
| Ev_EVP_CIPHER_CTX_init (p : nat)
| Ev_EVP_CIPHER_CTX_cleanup (p : nat) (h : EVP_CIPHER_CTX)
| Ev_EVP_EncryptInit_ex (p : nat) (evp : EVP_CIPHER) (k iv : list uint8_t)
| Ev_EVP_EncryptUpdate (p : nat) (inl : Z)
| Ev_EVP_EncryptFinal_ex (p : nat).

(** [oom] lists the outcomes of the coming calls of srtp_crypto_alloc
    ([true]: out of memory, NULL is returned); past its end every call
    succeeds. *)
Record world : Type := {
  heap : list cell;
  oom : list bool;
  trace : list event
}.

Definition M (A : Type) : Type := world -> option (A * world).

Definition ret {A : Type} (a : A) : M A := fun w => Some (a, w).
Definition bind {A B : Type} (m : M A) (k : A -> M B) : M B :=
  fun w => match m w with
           | Some (a, w') => k a w'
           | None => None
           end.
Definition undefined {A : Type} : M A := fun _ => None.

End Engine.

Notation "'let*' x ':=' m 'in' k" := (bind m (fun x => k))
  (at level 10, x name, m at level 100, k at level 200).

Section Functions.
Context `{Ext : Externals}.

(** ** Memory primitives *)

Definition lift {A : Type} (o : option A) : M A :=
  fun w => match o with Some a => Some (a, w) | None => None end.

Definition emit (e : event) : M unit :=
  fun w => Some (tt, {| heap := heap w; oom := oom w; trace := trace w ++ [e] |}).

(** Dereferencing [p]: the object of a live cell. *)
Definition load (p : ptr) : M object :=
  fun w => match p with
           | Some a =>
               match heap w !! a with
               | Some {| live := true; obj := o |} => Some (o, w)
               | _ => None
               end
           | None => None
           end.

Definition load_icm (p : ptr) : M srtp_aes_icm_ctx_t :=
  let* o := load p in
  match o with Obj_icm i => ret i | _ => undefined end.

Definition load_cipher (p : ptr) : M srtp_cipher_t :=
  let* o := load p in
  match o with Obj_cipher c => ret c | _ => undefined end.

(** Writing through [p]: the cell must be live. *)
Definition store (p : ptr) (o : object) : M unit :=
  fun w => match p with
           | Some a =>
               match heap w !! a with
               | Some {| live := true; obj := _ |} =>
                   Some (tt, {| heap := <[a := {| live := true; obj := o |}]> (heap w);
                                oom := oom w; trace := trace w |})
               | _ => None
               end
           | None => None
           end.

(** Assigning to fields through [p]: [p->f = v]. *)
Definition update_icm (p : ptr) (f : srtp_aes_icm_ctx_t -> srtp_aes_icm_ctx_t) : M unit :=
  let* i := load_icm p in store p (Obj_icm (f i)).

Definition update_cipher (p : ptr) (f : srtp_cipher_t -> srtp_cipher_t) : M unit :=
  let* c := load_cipher p in store p (Obj_cipher (f c)).

(** srtp_crypto_alloc (alloc.h): a fresh cell, or NULL when memory is
    exhausted. *)
Definition srtp_crypto_alloc : M ptr :=
  fun w => match oom w with
           | true :: rest =>
               Some (NULL, {| heap := heap w; oom := rest;
                              trace := trace w ++ [Ev_srtp_crypto_alloc NULL] |})
           | _ =>
               let a := length (heap w) in
               Some (Some a,
                     {| heap := heap w ++ [{| live := true; obj := Uninit |}];
                        oom := tail (oom w);
                        trace := trace w ++ [Ev_srtp_crypto_alloc (Some a)] |})
           end.

(** srtp_crypto_free (alloc.h): the cell is released and keeps its
    contents; freeing memory that is not live is undefined. *)
Definition srtp_crypto_free (p : ptr) : M unit :=
  fun w => match p with
           | Some a =>
               match heap w !! a with
               | Some {| live := true; obj := o |} =>
                   Some (tt, {| heap := <[a := {| live := false; obj := o |}]> (heap w);
                                oom := oom w;
                                trace := trace w ++ [Ev_srtp_crypto_free a] |})
               | _ => None
               end
           | None => Some (tt, w)
           end.

(** Modelled from the spec: octet_string_set_to_zero of datatypes.h, here
    over the whole srtp_aes_icm_ctx_t at [p]: every octet becomes zero. *)
Definition octet_string_set_to_zero (p : ptr) : M unit :=
  let* _ := load_icm p in
  let* _ := store p (Obj_icm zero_icm) in
  match p with Some a => emit (Ev_octet_string_set_to_zero a) | None => undefined end.

(** EVP_CIPHER_CTX_init(&c->ctx) and EVP_CIPHER_CTX_cleanup(&c->ctx) on
    the context at [p]. *)
Definition evp_ctx_init (p : ptr) : M unit :=
  let* i := load_icm p in
  let* _ := store p (Obj_icm (set_ctx (EVP_CIPHER_CTX_init (ctx i)) i)) in
  match p with Some a => emit (Ev_EVP_CIPHER_CTX_init a) | None => undefined end.

Definition evp_ctx_cleanup (p : ptr) : M unit :=
  let* i := load_icm p in
  let* _ := store p (Obj_icm (set_ctx (EVP_CIPHER_CTX_cleanup (ctx i)) i)) in
  match p with Some a => emit (Ev_EVP_CIPHER_CTX_cleanup a (ctx i)) | None => undefined end.

(** ** The engine *)

(** srtp_aes_icm_openssl_alloc.  [c] is the value of [*c] on entry; the
    result carries the status and the value of [*c] on return. *)
Definition srtp_aes_icm_openssl_alloc (c : ptr) (key_len tlen : Z)
  : M (srtp_err_status_t * ptr) :=
  if negb (key_len =? SRTP_AES_128_KEYSIZE_WSALT) &&
     negb (key_len =? SRTP_AES_192_KEYSIZE_WSALT) &&
     negb (key_len =? SRTP_AES_256_KEYSIZE_WSALT)
  then ret (srtp_err_status_bad_param, c)
  else
    let* c := srtp_crypto_alloc in
    match c with
    | None => ret (srtp_err_status_alloc_fail, c)
    | Some _ =>
      let* _ := store c (Obj_cipher zero_cipher) in
      let* icm := srtp_crypto_alloc in
      match icm with
      | None =>
        let* _ := srtp_crypto_free c in
        ret (srtp_err_status_alloc_fail, NULL)
      | Some _ =>
        let* _ := store icm (Obj_icm zero_icm) in
        let* _ := update_cipher c (set_state icm) in
        let* _ :=
          if key_len =? SRTP_AES_128_KEYSIZE_WSALT then
            let* _ := update_cipher c (set_algorithm SRTP_AES_128_ICM) in
            let* _ := update_cipher c (set_type addr_srtp_aes_icm) in
            update_icm icm (set_key_size SRTP_AES_128_KEYSIZE)
          else if key_len =? SRTP_AES_192_KEYSIZE_WSALT then
            let* _ := update_cipher c (set_algorithm SRTP_AES_192_ICM) in
            let* _ := update_cipher c (set_type addr_srtp_aes_icm_192) in
            update_icm icm (set_key_size SRTP_AES_192_KEYSIZE)
          else if key_len =? SRTP_AES_256_KEYSIZE_WSALT then
            let* _ := update_cipher c (set_algorithm SRTP_AES_256_ICM) in
            let* _ := update_cipher c (set_type addr_srtp_aes_icm_256) in
            update_icm icm (set_key_size SRTP_AES_256_KEYSIZE)
          else ret tt in
        let* _ := update_cipher c (set_key_len key_len) in
        let* _ := evp_ctx_init icm in
        ret (srtp_err_status_ok, c)
      end
    end.

(** srtp_aes_icm_openssl_dealloc. *)
Definition srtp_aes_icm_openssl_dealloc (c : ptr) : M srtp_err_status_t :=
  match c with
  | None => ret srtp_err_status_bad_param
  | Some _ =>
    let* ci := load_cipher c in
    let ctxp := state ci in
    let* _ :=
      match ctxp with
      | Some _ =>
        let* _ := evp_ctx_cleanup ctxp in
        let* _ := octet_string_set_to_zero ctxp in
        srtp_crypto_free ctxp
      | None => ret tt
      end in
    let* _ := srtp_crypto_free c in
    ret srtp_err_status_ok
  end.

(** srtp_aes_icm_openssl_context_init.  [kbuf] is the caller's buffer
    [key] points to. *)
Definition srtp_aes_icm_openssl_context_init (c : ptr) (kbuf : list uint8_t)
  : M srtp_err_status_t :=
  let* s := load_icm c in
  let s := set_counter v128_set_to_zero s in
  let s := set_offset v128_set_to_zero s in
  let* salt := lift (octets kbuf (key_size s) (Z.to_nat SRTP_SALT_SIZE)) in
  let s := set_counter (memcpy (counter s) salt) s in
  let s := set_offset (memcpy (offset s) salt) s in
  let s := set_offset
             (<[Z.to_nat SRTP_SALT_SIZE := 0]>
                (<[Z.to_nat (SRTP_SALT_SIZE + 1) := 0]> (offset s))) s in
  let s := set_counter
             (<[Z.to_nat SRTP_SALT_SIZE := 0]>
                (<[Z.to_nat (SRTP_SALT_SIZE + 1) := 0]> (counter s))) s in
  let* k0 := lift (v128_copy_octet_string kbuf 0) in
  let s := set_key (memcpy_at (key s) 0 k0) s in
  let* s :=
    if (key_size s =? SRTP_AES_256_KEYSIZE) || (key_size s =? SRTP_AES_192_KEYSIZE)
    then
      let* k1 := lift (v128_copy_octet_string kbuf SRTP_AES_128_KEYSIZE) in
      ret (set_key (memcpy_at (key s) 16 k1) s)
    else ret s in
  let* _ := store c (Obj_icm s) in
  let* _ := evp_ctx_cleanup c in
  ret srtp_err_status_ok.

(** srtp_aes_icm_openssl_set_iv.  [iv] is the caller's buffer. *)
Definition srtp_aes_icm_openssl_set_iv (c : ptr) (iv : list uint8_t) (dir : Z)
  : M srtp_err_status_t :=
  let* nonce := lift (v128_copy_octet_string iv 0) in
  let* s := load_icm c in
  let s := set_counter (v128_xor (offset s) nonce) s in
  let* _ := store c (Obj_icm s) in
  let* evp :=
    ret (if key_size s =? SRTP_AES_256_KEYSIZE then Some EVP_aes_256_ctr
         else if key_size s =? SRTP_AES_192_KEYSIZE then Some EVP_aes_192_ctr
         else if key_size s =? SRTP_AES_128_KEYSIZE then Some EVP_aes_128_ctr
         else None) in
  match evp, c with
  | None, _ => ret srtp_err_status_bad_param
  | Some evp, Some a =>
    let r := EVP_EncryptInit_ex (ctx s) evp (key s) (counter s) in
    let* _ := emit (Ev_EVP_EncryptInit_ex a evp (key s) (counter s)) in
    let* _ := store c (Obj_icm (set_ctx (snd r) s)) in
    if negb (fst r) then ret srtp_err_status_fail
    else ret srtp_err_status_ok
  | Some _, None => undefined
  end.

(** srtp_aes_icm_openssl_encrypt.  [buf] is the caller's buffer and
    [enc_len] the value of [*enc_len] on entry; the result carries the
    status, the buffer and [*enc_len] on return.  Passing a length beyond
    the end of the buffer is undefined. *)
Definition srtp_aes_icm_openssl_encrypt (c : ptr) (buf : list uint8_t) (enc_len : Z)
  : M (srtp_err_status_t * list uint8_t * Z) :=
  let* s := load_icm c in
  match c with
  | None => undefined
  | Some a =>
    if Z.of_nat (length buf) <? enc_len then undefined
    else
      let '(ok, h, buf, len) := EVP_EncryptUpdate (ctx s) buf (int_of_uint enc_len) in
      let* _ := emit (Ev_EVP_EncryptUpdate a (int_of_uint enc_len)) in
      let s := set_ctx h s in
      let* _ := store c (Obj_icm s) in
      if negb ok then ret (srtp_err_status_cipher_fail, buf, enc_len)
      else
        let enc_len := uint_of_int len in
        let '(ok, h, buf, len) := EVP_EncryptFinal_ex (ctx s) buf in
        let* _ := emit (Ev_EVP_EncryptFinal_ex a) in
        let* _ := store c (Obj_icm (set_ctx h s)) in
        if negb ok then ret (srtp_err_status_cipher_fail, buf, enc_len)
        else ret (srtp_err_status_ok, buf, uint_of_int (enc_len + len))
  end.

End Functions.

(** ** The external cipher: AES in counter mode

    OpenSSL is not part of the repository.  For the properties that depend on
    what the primitive computes, [EVP_aes_128_ctr], [EVP_aes_192_ctr] and
    [EVP_aes_256_ctr] are modelled as counter mode (NIST SP 800-38A, with
    OpenSSL's 128-bit big-endian counter increment) over a block cipher,
    and the block cipher as AES (FIPS 197). *)

Module AES.

Definition xtime (a : Z) : Z :=
  let d := Z.shiftl a 1 in
  if Z.testbit a 7 then Z.lxor (Z.land d 255) 27 else d.

(** Multiplication in GF(2^8) modulo x^8 + x^4 + x^3 + x + 1. *)
Fixpoint gf_mul_aux (n : nat) (a b acc : Z) : Z :=
  match n with
  | O => acc
  | S n' => gf_mul_aux n' (xtime a) (Z.shiftr b 1)
              (if Z.odd b then Z.lxor acc a else acc)
  end.
Definition gf_mul (a b : Z) : Z := gf_mul_aux 8 a b 0.

(** The multiplicative inverse, a^254, with 0 mapped to 0. *)
Definition gf_inv (a : Z) : Z :=
  let a2 := gf_mul a a in
  let a4 := gf_mul a2 a2 in
  let a8 := gf_mul a4 a4 in
  let a16 := gf_mul a8 a8 in
  let a32 := gf_mul a16 a16 in
  let a64 := gf_mul a32 a32 in
  let a128 := gf_mul a64 a64 in
  gf_mul a2 (gf_mul a4 (gf_mul a8 (gf_mul a16 (gf_mul a32 (gf_mul a64 a128))))).

Definition rotl8 (x : Z) (n : Z) : Z :=
  Z.land (Z.lor (Z.shiftl x n) (Z.shiftr x (8 - n))) 255.

(** The S-box: inversion followed by the affine map (FIPS 197, 5.1.1). *)
Definition sbox_of (a : Z) : Z :=
  let b := gf_inv a in
  Z.lxor b (Z.lxor (rotl8 b 1) (Z.lxor (rotl8 b 2)
    (Z.lxor (rotl8 b 3) (Z.lxor (rotl8 b 4) 99)))).

Definition sbox_table : list Z :=
  Eval vm_compute in map (fun n => sbox_of (Z.of_nat n)) (seq 0 256).

Definition SubByte (b : Z) : Z := nth (Z.to_nat b) sbox_table 0.

Definition xor_octets (a b : list Z) : list Z := zip_with Z.lxor a b.

(** Splitting into [n] words of four octets. *)
Fixpoint words (n : nat) (l : list Z) : list (list Z) :=
  match n with
  | O => []
  | S n' => take 4 l :: words n' (drop 4 l)
  end.

Definition RotWord (w : list Z) : list Z :=
  match w with
  | a :: r => r ++ [a]
  | [] => []
  end.
Definition SubWord (w : list Z) : list Z := map SubByte w.
Definition Rcon (i : nat) : list Z := [Nat.iter (i - 1) xtime 1; 0; 0; 0].

(** Key expansion (FIPS 197, 5.2): [w] holds the words w[0..i-1]. *)
Fixpoint expand (fuel Nk i : nat) (w : list (list Z)) : list (list Z) :=
  match fuel with
  | O => w
  | S fuel' =>
      let temp := nth (i - 1) w [] in
      let temp :=
        if (i mod Nk =? 0)%nat then xor_octets (SubWord (RotWord temp)) (Rcon (i / Nk))
        else if (6 <? Nk)%nat && (i mod Nk =? 4)%nat then SubWord temp
        else temp in
      expand fuel' Nk (S i) (w ++ [xor_octets (nth (i - Nk) w []) temp])
  end.

Definition KeyExpansion (Nk Nr : nat) (k : list Z) : list (list Z) :=
  expand (4 * (Nr + 1) - Nk) Nk Nk (words Nk k).

(** Round keys: four words each. *)
Fixpoint round_keys (n : nat) (w : list (list Z)) : list (list Z) :=
  match n with
  | O => []
  | S n' => concat (take 4 w) :: round_keys n' (drop 4 w)
  end.

Definition SubBytes (st : list Z) : list Z := map SubByte st.

(** The state is held column by column: octet r + 4c is row r, column c. *)
Definition ShiftRows (st : list Z) : list Z :=
  map (fun i => nth i st 0)
      [0; 5; 10; 15; 4; 9; 14; 3; 8; 13; 2; 7; 12; 1; 6; 11]%nat.

Definition mix_column (c : list Z) : list Z :=
  match c with
  | [a0; a1; a2; a3] =>
      [Z.lxor (gf_mul 2 a0) (Z.lxor (gf_mul 3 a1) (Z.lxor a2 a3));
       Z.lxor a0 (Z.lxor (gf_mul 2 a1) (Z.lxor (gf_mul 3 a2) a3));
       Z.lxor a0 (Z.lxor a1 (Z.lxor (gf_mul 2 a2) (gf_mul 3 a3)));
       Z.lxor (gf_mul 3 a0) (Z.lxor a1 (Z.lxor a2 (gf_mul 2 a3)))]
  | _ => c
  end.
Definition MixColumns (st : list Z) : list Z := concat (map mix_column (words 4 st)).

Definition AddRoundKey (st rk : list Z) : list Z := xor_octets st rk.

Fixpoint rounds (rks : list (list Z)) (st : list Z) : list Z :=
  match rks with
  | [] => st
  | [rk] => AddRoundKey (ShiftRows (SubBytes st)) rk
  | rk :: rest => rounds rest (AddRoundKey (MixColumns (ShiftRows (SubBytes st))) rk)
  end.

(** Cipher (FIPS 197, 5.1) for a key of [Nk] words and [Nr] rounds. *)
Definition Cipher (Nk Nr : nat) (k blk : list Z) : list Z :=
  match round_keys (Nr + 1) (KeyExpansion Nk Nr k) with
  | rk0 :: rks => rounds rks (AddRoundKey blk rk0)
  | [] => blk
  end.

Definition key_length (evp : EVP_CIPHER) : nat :=
  match evp with
  | EVP_aes_128_ctr => 16
  | EVP_aes_192_ctr => 24
  | EVP_aes_256_ctr => 32
  end.

Definition encrypt_block (evp : EVP_CIPHER) (k blk : list Z) : list Z :=
  match evp with
  | EVP_aes_128_ctr => Cipher 4 10 k blk
  | EVP_aes_192_ctr => Cipher 6 12 k blk
  | EVP_aes_256_ctr => Cipher 8 14 k blk
  end.

End AES.

(** A block cipher for each of the three descriptors: cipher, key, block. *)
Class BlockCipher : Type :=
  block_encrypt : EVP_CIPHER -> list Z -> list Z -> list Z.

Module CTR.

(** The part of OpenSSL's EVP_CIPHER_CTX counter mode uses: the selected
    cipher, its key, the running counter block [iv], the current keystream
    block [buf] and the number [num] of its octets already used. *)
Record evp_cipher_ctx_st : Type := {
  cipher : option EVP_CIPHER;
  cipher_key : list uint8_t;
  iv : list uint8_t;
  buf : list uint8_t;
  num : Z
}.

Definition zero_ctx : evp_cipher_ctx_st :=
  {| cipher := None; cipher_key := []; iv := replicate 16 0;
     buf := replicate 16 0; num := 0 |}.

(** ctr128_inc: the counter block plus one, big-endian, modulo 2^128. *)
Fixpoint inc_from_last (l : list uint8_t) : list uint8_t :=
  match l with
  | [] => []
  | b :: r => if b =? 255 then 0 :: inc_from_last r else (b + 1) :: r
  end.
Definition ctr128_inc (counter : list uint8_t) : list uint8_t :=
  rev (inc_from_last (rev counter)).

Section Mode.
Context `{BC : BlockCipher}.

(** One octet of CRYPTO_ctr128_encrypt: a new keystream block is produced
    and the counter advanced whenever the previous block is used up. *)
Definition ctr_octet (evp : EVP_CIPHER) (s : evp_cipher_ctx_st) (b : uint8_t)
  : evp_cipher_ctx_st * uint8_t :=
  let s1 :=
    if num s =? 0
    then {| cipher := cipher s; cipher_key := cipher_key s;
            iv := ctr128_inc (iv s);
            buf := block_encrypt evp (cipher_key s) (iv s);
            num := num s |}
    else s in
  ({| cipher := cipher s1; cipher_key := cipher_key s1; iv := iv s1;
      buf := buf s1; num := (num s1 + 1) mod 16 |},
   Z.lxor b (nth (Z.to_nat (num s1)) (buf s1) 0)).

Fixpoint ctr128_encrypt (evp : EVP_CIPHER) (s : evp_cipher_ctx_st) (input : list uint8_t)
  : evp_cipher_ctx_st * list uint8_t :=
  match input with
  | [] => (s, [])
  | b :: rest =>
      let '(s1, o) := ctr_octet evp s b in
      let '(s2, out) := ctr128_encrypt evp s1 rest in
      (s2, o :: out)
  end.

(** EVP_EncryptInit_ex with a counter-mode cipher: key and counter block
    are taken over and the keystream position is reset. *)
Definition EncryptInit_ex (s : evp_cipher_ctx_st) (evp : EVP_CIPHER)
    (k counter : list uint8_t) : bool * evp_cipher_ctx_st :=
  (true, {| cipher := Some evp; cipher_key := take (AES.key_length evp) k;
            iv := take 16 counter; buf := replicate 16 0; num := 0 |}).

(** EVP_EncryptUpdate for a stream mode: a length of zero succeeds with no
    output, a negative one fails; otherwise [inl] octets are transformed
    in place and reported. A context with no cipher selected fails. *)
Definition EncryptUpdate (s : evp_cipher_ctx_st) (buffer : list uint8_t) (inl : Z)
  : bool * evp_cipher_ctx_st * list uint8_t * Z :=
  match cipher s with
  | None => (false, s, buffer, 0)
  | Some evp =>
      if inl <=? 0 then (inl =? 0, s, buffer, 0)
      else
        let n := Z.to_nat inl in
        let '(s', out) := ctr128_encrypt evp s (take n buffer) in
        (true, s', out ++ drop n buffer, inl)
  end.

(** EVP_EncryptFinal_ex for a stream mode: nothing is pending. *)
Definition EncryptFinal_ex (s : evp_cipher_ctx_st) (buffer : list uint8_t)
  : bool * evp_cipher_ctx_st * list uint8_t * Z :=
  (true, s, buffer, 0).

(** The externals with this primitive.  The algorithm identifiers are
    given the values of crypto_types.h; the engine only stores them. *)
Definition externals : Externals :=
  {| SRTP_AES_ICM := 1;
     SRTP_AES_128_ICM := 1;
     SRTP_AES_192_ICM := 4;
     SRTP_AES_256_ICM := 5;
     EVP_CIPHER_CTX := evp_cipher_ctx_st;
     EVP_CIPHER_CTX_zero := zero_ctx;
     EVP_CIPHER_CTX_init := fun _ => zero_ctx;
     EVP_CIPHER_CTX_cleanup := fun _ => zero_ctx;
     EVP_EncryptInit_ex := EncryptInit_ex;
     EVP_EncryptUpdate := EncryptUpdate;
     EVP_EncryptFinal_ex := EncryptFinal_ex |}.

End Mode.

End CTR.

#[global] Existing Instance CTR.externals.

(** OpenSSL's AES counter mode. *)
Definition aes : BlockCipher := AES.encrypt_block.
Definition openssl : Externals := @CTR.externals aes.

(** ** Known-answer fixtures and function tables

    The all-zero nonces (16 octets) and plaintexts (32 octets) of the
    source are written with [replicate]. *)

(** srtp_debug_module_t (err.h). *)
Record srtp_debug_module_t : Type := { on : Z; name : string }.

Definition srtp_mod_aes_icm : srtp_debug_module_t :=
  {| on := 0; name := "aes icm ossl" |}.

(** srtp_cipher_test_case_t (cipher.h), in the order of the initialisers. *)
#[warnings="-register-all"]
Inductive srtp_cipher_test_case_t : Type := Build_srtp_cipher_test_case_t {
  key_length_octets : Z;
  tc_key : list uint8_t;
  idx : list uint8_t;
  plaintext_length_octets : Z;
  plaintext : list uint8_t;
  ciphertext_length_octets : Z;
  ciphertext : list uint8_t;
  aad_length_octets : Z;
  aad : option (list uint8_t);
  tag_length_octets : Z;
  next_test_case : option srtp_cipher_test_case_t
}.

Definition srtp_aes_icm_test_case_0_key : list uint8_t :=
  [0x2b; 0x7e; 0x15; 0x16; 0x28; 0xae; 0xd2; 0xa6;
   0xab; 0xf7; 0x15; 0x88; 0x09; 0xcf; 0x4f; 0x3c;
   0xf0; 0xf1; 0xf2; 0xf3; 0xf4; 0xf5; 0xf6; 0xf7;
   0xf8; 0xf9; 0xfa; 0xfb; 0xfc; 0xfd].

Definition srtp_aes_icm_test_case_0_nonce : list uint8_t :=
  replicate 16 0x00.

Definition srtp_aes_icm_test_case_0_plaintext : list uint8_t :=
  replicate 32 0x00.

Definition srtp_aes_icm_test_case_0_ciphertext : list uint8_t :=
  [0xe0; 0x3e; 0xad; 0x09; 0x35; 0xc9; 0x5e; 0x80;
   0xe1; 0x66; 0xb1; 0x6d; 0xd9; 0x2b; 0x4e; 0xb4;
   0xd2; 0x35; 0x13; 0x16; 0x2b; 0x02; 0xd0; 0xf7;
   0x2a; 0x43; 0xa2; 0xfe; 0x4a; 0x5f; 0x97; 0xab].

Definition srtp_aes_icm_test_case_0 : srtp_cipher_test_case_t :=
  {| key_length_octets := SRTP_AES_128_KEYSIZE_WSALT;
     tc_key := srtp_aes_icm_test_case_0_key;
     idx := srtp_aes_icm_test_case_0_nonce;
     plaintext_length_octets := 32;
     plaintext := srtp_aes_icm_test_case_0_plaintext;
     ciphertext_length_octets := 32;
     ciphertext := srtp_aes_icm_test_case_0_ciphertext;
     aad_length_octets := 0;
     aad := None;
     tag_length_octets := 0;
     next_test_case := None |}.

Definition srtp_aes_icm_192_test_case_1_key : list uint8_t :=
  [0xea; 0xb2; 0x34; 0x76; 0x4e; 0x51; 0x7b; 0x2d;
   0x3d; 0x16; 0x0d; 0x58; 0x7d; 0x8c; 0x86; 0x21;
   0x97; 0x40; 0xf6; 0x5f; 0x99; 0xb6; 0xbc; 0xf7;
   0xf0; 0xf1; 0xf2; 0xf3; 0xf4; 0xf5; 0xf6; 0xf7;
   0xf8; 0xf9; 0xfa; 0xfb; 0xfc; 0xfd].

Definition srtp_aes_icm_192_test_case_1_nonce : list uint8_t :=
  replicate 16 0x00.

Definition srtp_aes_icm_192_test_case_1_plaintext : list uint8_t :=
  replicate 32 0x00.

Definition srtp_aes_icm_192_test_case_1_ciphertext : list uint8_t :=
  [0x35; 0x09; 0x6c; 0xba; 0x46; 0x10; 0x02; 0x8d;
   0xc1; 0xb5; 0x75; 0x03; 0x80; 0x4c; 0xe3; 0x7c;
   0x5d; 0xe9; 0x86; 0x29; 0x1d; 0xcc; 0xe1; 0x61;
   0xd5; 0x16; 0x5e; 0xc4; 0x56; 0x8f; 0x5c; 0x9a].

Definition srtp_aes_icm_192_test_case_1 : srtp_cipher_test_case_t :=
  {| key_length_octets := SRTP_AES_192_KEYSIZE_WSALT;
     tc_key := srtp_aes_icm_192_test_case_1_key;
     idx := srtp_aes_icm_192_test_case_1_nonce;
     plaintext_length_octets := 32;
     plaintext := srtp_aes_icm_192_test_case_1_plaintext;
     ciphertext_length_octets := 32;
     ciphertext := srtp_aes_icm_192_test_case_1_ciphertext;
     aad_length_octets := 0;
     aad := None;
     tag_length_octets := 0;
     next_test_case := None |}.

Definition srtp_aes_icm_256_test_case_2_key : list uint8_t :=
  [0x57; 0xf8; 0x2f; 0xe3; 0x61; 0x3f; 0xd1; 0x70;
   0xa8; 0x5e; 0xc9; 0x3c; 0x40; 0xb1; 0xf0; 0x92;
   0x2e; 0xc4; 0xcb; 0x0d; 0xc0; 0x25; 0xb5; 0x82;
   0x72; 0x14; 0x7c; 0xc4; 0x38; 0x94; 0x4a; 0x98;
   0xf0; 0xf1; 0xf2; 0xf3; 0xf4; 0xf5; 0xf6; 0xf7;
   0xf8; 0xf9; 0xfa; 0xfb; 0xfc; 0xfd].

Definition srtp_aes_icm_256_test_case_2_nonce : list uint8_t :=
  replicate 16 0x00.

Definition srtp_aes_icm_256_test_case_2_plaintext : list uint8_t :=
  replicate 32 0x00.

Definition srtp_aes_icm_256_test_case_2_ciphertext : list uint8_t :=
  [0x92; 0xbd; 0xd2; 0x8a; 0x93; 0xc3; 0xf5; 0x25;
   0x11; 0xc6; 0x77; 0xd0; 0x8b; 0x55; 0x15; 0xa4;
   0x9d; 0xa7; 0x1b; 0x23; 0x78; 0xa8; 0x54; 0xf6;
   0x70; 0x50; 0x75; 0x6d; 0xed; 0x16; 0x5b; 0xac].

Definition srtp_aes_icm_256_test_case_2 : srtp_cipher_test_case_t :=
  {| key_length_octets := SRTP_AES_256_KEYSIZE_WSALT;
     tc_key := srtp_aes_icm_256_test_case_2_key;
     idx := srtp_aes_icm_256_test_case_2_nonce;
     plaintext_length_octets := 32;
     plaintext := srtp_aes_icm_256_test_case_2_plaintext;
     ciphertext_length_octets := 32;
     ciphertext := srtp_aes_icm_256_test_case_2_ciphertext;
     aad_length_octets := 0;
     aad := None;
     tag_length_octets := 0;
     next_test_case := None |}.

Section Tables.
Context `{Ext : Externals}.

(** srtp_cipher_type_t (cipher.h): the function table of an engine.  A
    null function pointer is [None]. *)
Record srtp_cipher_type_t : Type := {
  alloc : ptr -> Z -> Z -> M (srtp_err_status_t * ptr);
  dealloc : ptr -> M srtp_err_status_t;
  init : ptr -> list uint8_t -> M srtp_err_status_t;
  set_aad : option (ptr -> list uint8_t -> Z -> M srtp_err_status_t);
  encrypt : ptr -> list uint8_t -> Z -> M (srtp_err_status_t * list uint8_t * Z);
  decrypt : ptr -> list uint8_t -> Z -> M (srtp_err_status_t * list uint8_t * Z);
  set_iv : ptr -> list uint8_t -> Z -> M srtp_err_status_t;
  get_tag : option (ptr -> M (srtp_err_status_t * list uint8_t * Z));
  description : string;
  test_data : option srtp_cipher_test_case_t;
  debug : srtp_debug_module_t;
  id : Z
}.

Definition srtp_aes_icm_openssl_description : string :=
  "AES-128 counter mode using openssl".
Definition srtp_aes_icm_192_openssl_description : string :=
  "AES-192 counter mode using openssl".
Definition srtp_aes_icm_256_openssl_description : string :=
  "AES-256 counter mode using openssl".

Definition srtp_aes_icm : srtp_cipher_type_t :=
  {| alloc := srtp_aes_icm_openssl_alloc;
     dealloc := srtp_aes_icm_openssl_dealloc;
     init := srtp_aes_icm_openssl_context_init;
     set_aad := None;
     encrypt := srtp_aes_icm_openssl_encrypt;
     decrypt := srtp_aes_icm_openssl_encrypt;
     set_iv := srtp_aes_icm_openssl_set_iv;
     get_tag := None;
     description := srtp_aes_icm_openssl_description;
     test_data := Some srtp_aes_icm_test_case_0;
     debug := srtp_mod_aes_icm;
     id := SRTP_AES_ICM |}.

Definition srtp_aes_icm_192 : srtp_cipher_type_t :=
  {| alloc := srtp_aes_icm_openssl_alloc;
     dealloc := srtp_aes_icm_openssl_dealloc;
     init := srtp_aes_icm_openssl_context_init;
     set_aad := None;
     encrypt := srtp_aes_icm_openssl_encrypt;
     decrypt := srtp_aes_icm_openssl_encrypt;
     set_iv := srtp_aes_icm_openssl_set_iv;
     get_tag := None;
     description := srtp_aes_icm_192_openssl_description;
     test_data := Some srtp_aes_icm_192_test_case_1;
     debug := srtp_mod_aes_icm;
     id := SRTP_AES_192_ICM |}.

Definition srtp_aes_icm_256 : srtp_cipher_type_t :=
  {| alloc := srtp_aes_icm_openssl_alloc;
     dealloc := srtp_aes_icm_openssl_dealloc;
     init := srtp_aes_icm_openssl_context_init;
     set_aad := None;
     encrypt := srtp_aes_icm_openssl_encrypt;
     decrypt := srtp_aes_icm_openssl_encrypt;
     set_iv := srtp_aes_icm_openssl_set_iv;
     get_tag := None;
     description := srtp_aes_icm_256_openssl_description;
     test_data := Some srtp_aes_icm_256_test_case_2;
     debug := srtp_mod_aes_icm;
     id := SRTP_AES_256_ICM |}.

Definition cipher_types : list srtp_cipher_type_t :=
  [srtp_aes_icm; srtp_aes_icm_192; srtp_aes_icm_256].

(** Following a [type] pointer. *)
Definition deref_type (t : srtp_cipher_type_ptr) : option srtp_cipher_type_t :=
  match t with
  | type_NULL => None
  | addr_srtp_aes_icm => Some srtp_aes_icm
  | addr_srtp_aes_icm_192 => Some srtp_aes_icm_192
  | addr_srtp_aes_icm_256 => Some srtp_aes_icm_256
  end.

(** ** The life of one cipher

    Allocate through the table [ct], then initialize, set the IV and
    process one buffer through the table the new cipher points to, each
    on its state, as the accessors of cipher.h do; the first status that
    is not ok ends the run.  [process] picks the entry point, [encrypt]
    or [decrypt]. *)
Definition cipher_run
    (process : srtp_cipher_type_t ->
               ptr -> list uint8_t -> Z -> M (srtp_err_status_t * list uint8_t * Z))
    (ct : srtp_cipher_type_t) (klen : Z) (kbuf nonce : list uint8_t) (dir : Z)
    (data : list uint8_t) (len : Z)
  : M (srtp_err_status_t * list uint8_t * Z) :=
  let* r := alloc ct NULL klen 0 in
  if negb (bool_decide (fst r = srtp_err_status_ok)) then ret (fst r, data, len)
  else
    let* c := load_cipher (snd r) in
    let* t := lift (deref_type (type c)) in
    let* st := init t (state c) kbuf in
    if negb (bool_decide (st = srtp_err_status_ok)) then ret (st, data, len)
    else
      let* st := set_iv t (state c) nonce dir in
      if negb (bool_decide (st = srtp_err_status_ok)) then ret (st, data, len)
      else process t (state c) data len.

(** The known-answer run of a table on its own fixture. *)
Definition known_answer_run (ct : srtp_cipher_type_t) (dir : Z)
  : M (srtp_err_status_t * list uint8_t * Z) :=
  match test_data ct with
  | Some tc =>
      cipher_run encrypt ct (key_length_octets tc) (tc_key tc) (idx tc) dir
                 (plaintext tc) (plaintext_length_octets tc)
  | None => undefined
  end.

(** A world with nothing allocated and memory to spare. *)
Definition empty_world : world := {| heap := []; oom := []; trace := [] |}.

End Tables.

(** Octets in hexadecimal, two lower-case digits each. *)
Definition hex_digit (n : Z) : ascii :=
  nth (Z.to_nat n) (list_ascii_of_string "0123456789abcdef") "0"%char.
Fixpoint hex_string (l : list uint8_t) : string :=
  match l with
  | [] => EmptyString
  | b :: r => String (hex_digit (b / 16)) (String (hex_digit (b mod 16)) (hex_string r))
  end.

(** ** Vocabulary of the properties *)

Section Vocabulary.
Context `{Ext : Externals}.

(** The context, respectively the cipher, a live cell holds. *)
Definition icm_at (w : world) (a : nat) : option srtp_aes_icm_ctx_t :=
  match heap w !! a with
  | Some {| live := true; obj := Obj_icm i |} => Some i
  | _ => None
  end.

Definition cipher_at (w : world) (a : nat) : option srtp_cipher_t :=
  match heap w !! a with
  | Some {| live := true; obj := Obj_cipher c |} => Some c
  | _ => None
  end.

(** What a released cell still holds. *)
Definition released_at (w : world) (a : nat) : option object :=
  match heap w !! a with
  | Some {| live := false; obj := o |} => Some o
  | _ => None
  end.

(** [w] with the live cell [a] overwritten and [evs] appended to the log. *)
Definition put (a : nat) (o : object) (evs : list event) (w : world) : world :=
  {| heap := <[a := {| live := true; obj := o |}]> (heap w);
     oom := oom w;
     trace := trace w ++ evs |}.

(** The cipher descriptor of a key size, if any. *)
Definition evp_for (n : Z) : option EVP_CIPHER :=
  match n with
  | 16 => Some EVP_aes_128_ctr
  | 24 => Some EVP_aes_192_ctr
  | 32 => Some EVP_aes_256_ctr
  | _ => None
  end.

Definition supported_key_size (n : Z) : Prop := n = 16 \/ n = 24 \/ n = 32.

(** The key-size class of a key length with salt: algorithm identifier,
    function table and key size. *)
Definition class_of_key_len (n : Z) : option (Z * srtp_cipher_type_ptr * Z) :=
  match n with
  | 30 => Some (SRTP_AES_128_ICM, addr_srtp_aes_icm, 16)
  | 38 => Some (SRTP_AES_192_ICM, addr_srtp_aes_icm_192, 24)
  | 46 => Some (SRTP_AES_256_ICM, addr_srtp_aes_icm_256, 32)
  | _ => None
  end.

(** The world a successful srtp_aes_icm_openssl_alloc leaves: two new
    cells at the end of the heap, the cipher and its zeroed context. *)
Definition alloc_ok_world (w : world) (key_len alg : Z) (ty : srtp_cipher_type_ptr)
    (ks : Z) : world :=
  let n := length (heap w) in
  {| heap := heap w ++
       [{| live := true;
           obj := Obj_cipher {| type := ty; state := Some (S n);
                                key_len := key_len; algorithm := alg |} |};
        {| live := true;
           obj := Obj_icm {| counter := replicate 16 0; offset := replicate 16 0;
                             key := replicate 32 0; key_size := ks;
                             ctx := EVP_CIPHER_CTX_init EVP_CIPHER_CTX_zero |} |}];
     oom := tail (tail (oom w));
     trace := trace w ++ [Ev_srtp_crypto_alloc (Some n);
                          Ev_srtp_crypto_alloc (Some (S n));
                          Ev_EVP_CIPHER_CTX_init (S n)] |}.

(** The next [n] calls of srtp_crypto_alloc find memory. *)
Definition memory_available (n : nat) (w : world) : Prop :=
  forall i : nat, (i < n)%nat -> oom w !! i <> Some true.

(** The arrays of a context have their declared sizes. *)
Definition well_sized (s : srtp_aes_icm_ctx_t) : Prop :=
  length (counter s) = 16%nat /\ length (offset s) = 16%nat /\ length (key s) = 32%nat.

(** A context as srtp_aes_icm_openssl_alloc leaves it. *)
Definition allocated (s : srtp_aes_icm_ctx_t) : Prop :=
  well_sized s /\ supported_key_size (key_size s).

(** A context as srtp_aes_icm_openssl_context_init leaves an allocated
    one: the last two octets of the offset are zero. *)
Definition initialized (s : srtp_aes_icm_ctx_t) : Prop :=
  allocated s /\ offset s !! 14%nat = Some 0 /\ offset s !! 15%nat = Some 0.

(** The worlds reached from [w0] by calls of set_iv and of the
    encrypt/decrypt entry point, on any pointers and arguments. *)
Inductive reachable (w0 : world) : world -> Prop :=
| reach_here : reachable w0 w0
| reach_set_iv w p iv dir st w' :
    reachable w0 w ->
    srtp_aes_icm_openssl_set_iv p iv dir w = Some (st, w') ->
    reachable w0 w'
| reach_process w p buf len r w' :
    reachable w0 w ->
    srtp_aes_icm_openssl_encrypt p buf len w = Some (r, w') ->
    reachable w0 w'.

End Vocabulary.

Section Locality.
Context `{Ext : Externals}.

(** A call on the pointer [p] that took [w] to [w'] touched one cell
    only: [p] points to a context before and after, of the same key size;
    every other cell, the number of cells and the allocator's outcomes
    are as before. *)
Definition touches_only (p : ptr) (w w' : world) : Prop :=
  exists (a : nat) s s',
    p = Some a /\ icm_at w a = Some s /\ icm_at w' a = Some s' /\
    key_size s' = key_size s /\
    oom w' = oom w /\
    length (heap w') = length (heap w) /\
    forall b : nat, b <> a -> heap w' !! b = heap w !! b.

End Locality.

(** ** Example worlds, over OpenSSL's AES counter mode *)

Section Examples.

#[local] Existing Instance openssl.

(** The world srtp_aes_icm_openssl_alloc leaves from [empty_world] for a
    key length of 30: the cipher at address 0, its context at address 1. *)
Definition allocated_world : world :=
  alloc_ok_world empty_world 30 1 addr_srtp_aes_icm 16.

(** Its context: zeroed memory, key size 16, initialised EVP context. *)
Definition allocated_context : srtp_aes_icm_ctx_t :=
  {| counter := replicate 16 0; offset := replicate 16 0;
     key := replicate 32 0; key_size := 16; ctx := CTR.zero_ctx |}.

(** The context after context_init with the key and salt of test case 0. *)
Definition example_context : srtp_aes_icm_ctx_t :=
  {| counter := [0xf0; 0xf1; 0xf2; 0xf3; 0xf4; 0xf5; 0xf6; 0xf7;
                 0xf8; 0xf9; 0xfa; 0xfb; 0xfc; 0xfd; 0x00; 0x00];
     offset := [0xf0; 0xf1; 0xf2; 0xf3; 0xf4; 0xf5; 0xf6; 0xf7;
                0xf8; 0xf9; 0xfa; 0xfb; 0xfc; 0xfd; 0x00; 0x00];
     key := [0x2b; 0x7e; 0x15; 0x16; 0x28; 0xae; 0xd2; 0xa6;
             0xab; 0xf7; 0x15; 0x88; 0x09; 0xcf; 0x4f; 0x3c]
            ++ replicate 16 0;
     key_size := 16;
     ctx := CTR.zero_ctx |}.

Definition example_cipher : srtp_cipher_t :=
  {| type := addr_srtp_aes_icm; state := Some 1%nat; key_len := 30; algorithm := 1 |}.

(** The world after that alloc and context_init. *)
Definition example_world : world :=
  {| heap := [{| live := true; obj := Obj_cipher example_cipher |};
              {| live := true; obj := Obj_icm example_context |}];
     oom := [];
     trace := [Ev_srtp_crypto_alloc (Some 0%nat);
               Ev_srtp_crypto_alloc (Some 1%nat);
               Ev_EVP_CIPHER_CTX_init 1;
               Ev_EVP_CIPHER_CTX_cleanup 1 CTR.zero_ctx] |}.

(** A nonce whose last two octets are not zero. *)
Definition example_nonce : list Z :=
  [0; 1; 2; 3; 4; 5; 6; 7; 8; 9; 10; 11; 12; 13; 14; 15].

(** The context and the world after set_iv with that nonce on
    [example_world]. *)
Definition example_context_iv : srtp_aes_icm_ctx_t :=
  {| counter := [0xf0; 0xf0; 0xf0; 0xf0; 0xf0; 0xf0; 0xf0; 0xf0;
                 0xf0; 0xf0; 0xf0; 0xf0; 0xf0; 0xf0; 14; 15];
     offset := offset example_context;
     key := key example_context;
     key_size := 16;
     ctx := {| CTR.cipher := Some EVP_aes_128_ctr;
               CTR.cipher_key := take 16 (key example_context);
               CTR.iv := [0xf0; 0xf0; 0xf0; 0xf0; 0xf0; 0xf0; 0xf0; 0xf0;
                          0xf0; 0xf0; 0xf0; 0xf0; 0xf0; 0xf0; 14; 15];
               CTR.buf := replicate 16 0;
               CTR.num := 0 |} |}.

Definition example_world_iv : world :=
  put 1 (Obj_icm example_context_iv)
      [Ev_EVP_EncryptInit_ex 1 EVP_aes_128_ctr (key example_context)
         (counter example_context_iv)]
      example_world.

(** A world whose only context is zeroed memory: its key size, 0, is not
    a supported one. *)
Definition unkeyed_world : world :=
  {| heap := [{| live := true; obj := Obj_icm zero_icm |}]; oom := []; trace := [] |}.

(** A world with memory for one structure only. *)
Definition starved_world : world :=
  {| heap := []; oom := [false; true]; trace := [] |}.

(** A world whose only cell is a cipher with no context: its state
    pointer is null. *)
Definition stateless_world : world :=
  {| heap := [{| live := true; obj := Obj_cipher zero_cipher |}];
     oom := []; trace := [] |}.

(** The AES-256 ciphertext as the specification quotes it, blanks
    removed. *)
Definition quoted_aes_256_ciphertext : string :=
  "92bdd28a93c3f52511c677d08b5515a49da71b2378a854f67050756dded165bac".

End Examples.

(** ** Memory lemmas *)

Section Memory.
Context `{Ext : Externals}.

Lemma icm_at_live w a s :
  icm_at w a = Some s -> heap w !! a = Some {| live := true; obj := Obj_icm s |}.
Proof.
  unfold icm_at. destruct (heap w !! a) as [[[] []]|]; intros; simplify_eq; done.
Qed.

Lemma cipher_at_live w a c :
  cipher_at w a = Some c -> heap w !! a = Some {| live := true; obj := Obj_cipher c |}.
Proof.
  unfold cipher_at. destruct (heap w !! a) as [[[] []]|]; intros; simplify_eq; done.
Qed.

Lemma icm_at_lt w a s : icm_at w a = Some s -> (a < length (heap w))%nat.
Proof. intros H%icm_at_live. by eapply lookup_lt_Some. Qed.

Lemma load_icm_run w a s : icm_at w a = Some s -> load_icm (Some a) w = Some (s, w).
Proof.
  intros H%icm_at_live. unfold load_icm, bind, load. by rewrite H.
Qed.

Lemma load_icm_pre p w s w' :
  load_icm p w = Some (s, w') -> exists a, p = Some a /\ w' = w /\ icm_at w a = Some s.
Proof.
  unfold load_icm, bind, load, icm_at, ret, undefined.
  destruct p as [a|]; [|done].
  destruct (heap w !! a) as [[[] []]|] eqn:E; cbn; intros; simplify_eq.
  exists a. by rewrite E.
Qed.

Lemma load_cipher_run w a c :
  cipher_at w a = Some c -> load_cipher (Some a) w = Some (c, w).
Proof.
  intros H%cipher_at_live. unfold load_cipher, bind, load. by rewrite H.
Qed.

Lemma store_run w a o o' :
  heap w !! a = Some {| live := true; obj := o' |} ->
  store (Some a) o w = Some (tt, put a o [] w).
Proof.
  intros H. unfold store, put. rewrite H, app_nil_r. done.
Qed.

Lemma heap_put a o evs w : heap (put a o evs w) = <[a := {| live := true; obj := o |}]> (heap w).
Proof. done. Qed.

Lemma put_live a o evs w :
  (a < length (heap w))%nat ->
  heap (put a o evs w) !! a = Some {| live := true; obj := o |}.
Proof. intros. by apply list_lookup_insert_eq. Qed.

Lemma put_put a o1 o2 e1 e2 w : put a o2 e2 (put a o1 e1 w) = put a o2 (e1 ++ e2) w.
Proof.
  unfold put; cbn. by rewrite list_insert_insert_eq, app_assoc.
Qed.

Lemma icm_at_put_eq a s evs w :
  (a < length (heap w))%nat -> icm_at (put a (Obj_icm s) evs w) a = Some s.
Proof. intros. unfold icm_at. by rewrite put_live. Qed.

Lemma icm_at_put_ne a b o evs w : a <> b -> icm_at (put a o evs w) b = icm_at w b.
Proof. intros. unfold icm_at, put; cbn. by rewrite list_lookup_insert_ne. Qed.

Lemma emit_put a o evs e w :
  emit e (put a o evs w) = Some (tt, put a o (evs ++ [e]) w).
Proof. unfold emit, put; cbn. by rewrite app_assoc. Qed.

Lemma octets_length s off n l : octets s off n = Some l -> length l = n.
Proof.
  unfold octets. case_match eqn:E; [|done]. intros [= <-].
  apply andb_prop in E as [E1 E2]. apply Z.leb_le in E1, E2.
  rewrite length_take, length_drop. lia.
Qed.

Lemma octets_0 s n : (n <= length s)%nat -> octets s 0 n = Some (take n s).
Proof.
  intros. unfold octets. rewrite andb_true_intro; [done|].
  split; [done|]. apply Z.leb_le. lia.
Qed.

Lemma octets_0_pre s n l : octets s 0 n = Some l -> (n <= length s)%nat /\ l = take n s.
Proof.
  unfold octets. case_match eqn:E; [|done]. intros [= <-].
  apply andb_prop in E as [_ E2]. apply Z.leb_le in E2. split; [lia|done].
Qed.

Lemma evp_for_ifs n :
  (if n =? SRTP_AES_256_KEYSIZE then Some EVP_aes_256_ctr
   else if n =? SRTP_AES_192_KEYSIZE then Some EVP_aes_192_ctr
   else if n =? SRTP_AES_128_KEYSIZE then Some EVP_aes_128_ctr
   else None) = evp_for n.
Proof.
  unfold SRTP_AES_256_KEYSIZE, SRTP_AES_192_KEYSIZE, SRTP_AES_128_KEYSIZE.
  destruct (Z.eqb_spec n 32) as [->|]; [done|].
  destruct (Z.eqb_spec n 24) as [->|]; [done|].
  destruct (Z.eqb_spec n 16) as [->|]; [done|].
  unfold evp_for. repeat case_match; try done; lia.
Qed.

Lemma evp_for_supported n : supported_key_size n <-> is_Some (evp_for n).
Proof.
  split.
  - intros [-> | [-> | ->]]; cbn; eauto.
  - intros [e He]. unfold evp_for, supported_key_size in *.
    repeat case_match; simplify_eq; lia.
Qed.

End Memory.

(** ** How each function runs *)

Section Runs.
Context `{Ext : Externals}.

Lemma bind_run {A B} (m : M A) (k : A -> M B) w a w' :
  m w = Some (a, w') -> bind m k w = k a w'.
Proof. intros H. unfold bind. by rewrite H. Qed.

Lemma bind_eq {A B} (m : M A) (k : A -> M B) w r :
  m w = r ->
  bind m k w = match r with Some (a, w') => k a w' | None => None end.
Proof. by intros <-. Qed.

Lemma bind_pre {A B} (m : M A) (k : A -> M B) w r :
  bind m k w = Some r -> exists a w', m w = Some (a, w') /\ k a w' = Some r.
Proof.
  unfold bind. destruct (m w) as [[a w']|]; [|done]. intros. by exists a, w'.
Qed.

Lemma lift_run {A} (o : option A) a w : o = Some a -> lift o w = Some (a, w).
Proof. by intros ->. Qed.

Lemma lift_pre {A} (o : option A) a w w' : lift o w = Some (a, w') -> o = Some a /\ w' = w.
Proof. unfold lift. destruct o; intros; by simplify_eq. Qed.

(** set_iv on a live context and a buffer of at least 16 octets. *)
Lemma set_iv_run w a s iv dir :
  icm_at w a = Some s -> (16 <= length iv)%nat ->
  srtp_aes_icm_openssl_set_iv (Some a) iv dir w =
    let s1 := set_counter (v128_xor (offset s) (take 16 iv)) s in
    match evp_for (key_size s) with
    | None => Some (srtp_err_status_bad_param, put a (Obj_icm s1) [] w)
    | Some evp =>
        let r := EVP_EncryptInit_ex (ctx s) evp (key s) (counter s1) in
        Some (if fst r then srtp_err_status_ok else srtp_err_status_fail,
              put a (Obj_icm (set_ctx (snd r) s1))
                  [Ev_EVP_EncryptInit_ex a evp (key s) (counter s1)] w)
    end.
Proof.
  intros Hs Hiv. pose proof (icm_at_lt _ _ _ Hs) as Hlt.
  unfold srtp_aes_icm_openssl_set_iv.
  erewrite bind_run by (apply lift_run, octets_0, Hiv).
  erewrite bind_run by (apply load_icm_run, Hs).
  erewrite bind_run by (eapply store_run, icm_at_live, Hs).
  unfold bind at 1, ret at 1. cbn [key_size set_counter]. rewrite evp_for_ifs.
  destruct (evp_for (key_size s)) as [evp|]; [|done].
  erewrite bind_run by apply emit_put.
  erewrite bind_run by (eapply store_run, put_live, Hlt).
  rewrite put_put. cbn [app].
  by destruct (EVP_EncryptInit_ex _ _ _ _) as [[] h].
Qed.

Lemma set_iv_pre p iv dir w r :
  srtp_aes_icm_openssl_set_iv p iv dir w = Some r ->
  exists a s, p = Some a /\ icm_at w a = Some s /\ (16 <= length iv)%nat.
Proof.
  unfold srtp_aes_icm_openssl_set_iv.
  intros (nonce & w1 & [Hn ->]%lift_pre & H)%bind_pre.
  apply bind_pre in H as (s & w2 & (a & -> & -> & Hs)%load_icm_pre & _).
  apply octets_0_pre in Hn as [Hn _]. by exists a, s.
Qed.

End Runs.

(** ** set_iv: the counter derivation *)

Section SetIv.
Context `{Ext : Externals}.

Lemma v128_xor_lookup (x y : list Z) (i : nat) o n :
  x !! i = Some o -> y !! i = Some n -> v128_xor x y !! i = Some (Z.lxor o n).
Proof.
  intros Hx Hy. unfold v128_xor. rewrite lookup_zip_with, Hx. cbn. by rewrite Hy.
Qed.

Lemma v128_xor_length (x y : list Z) :
  length x = 16%nat -> length y = 16%nat -> length (v128_xor x y) = 16%nat.
Proof. intros Hx Hy. unfold v128_xor. rewrite length_zip_with. lia. Qed.

(** With a zero octet in the offset, the counter takes the nonce's octet. *)
Lemma v128_xor_zero_octet (x y : list Z) (i : nat) :
  x !! i = Some 0 -> v128_xor x y !! i = y !! i.
Proof.
  intros Hx. unfold v128_xor. rewrite lookup_zip_with, Hx. cbn.
  destruct (y !! i) as [n|]; cbn; [|done]. by rewrite Z.lxor_0_l.
Qed.

(** C2: on an initialized context and a 16-octet nonce, set_iv stores
    offset XOR nonce, octet by octet over the whole block, as the counter
    and then calls EVP_EncryptInit_ex with the cipher of the key size, the
    context's key and that counter; its status is that of the primitive.
    The direction argument changes nothing, and any other context with
    the same offset gets the same counter from the same nonce. *)
Theorem set_iv_counter_is_offset_xor_nonce w a s iv dir :
  icm_at w a = Some s -> initialized s -> length iv = 16%nat ->
  exists evp w',
    evp_for (key_size s) = Some evp /\
    let c' := v128_xor (offset s) iv in
    let r := EVP_EncryptInit_ex (ctx s) evp (key s) c' in
    srtp_aes_icm_openssl_set_iv (Some a) iv dir w =
      Some (if fst r then srtp_err_status_ok else srtp_err_status_fail, w') /\
    icm_at w' a = Some (set_ctx (snd r) (set_counter c' s)) /\
    trace w' = trace w ++ [Ev_EVP_EncryptInit_ex a evp (key s) c'] /\
    length c' = 16%nat /\
    (forall (i : nat) o n,
        offset s !! i = Some o -> iv !! i = Some n -> c' !! i = Some (Z.lxor o n)) /\
    (forall dir',
        srtp_aes_icm_openssl_set_iv (Some a) iv dir' w =
        srtp_aes_icm_openssl_set_iv (Some a) iv dir w) /\
    (forall w2 a2 s2 dir2 st2 w2',
        icm_at w2 a2 = Some s2 -> offset s2 = offset s ->
        srtp_aes_icm_openssl_set_iv (Some a2) iv dir2 w2 = Some (st2, w2') ->
        counter <$> icm_at w2' a2 = Some c').
Proof.
  intros Hs [[(Hc & Ho & Hk) Hsize] _] Hiv.
  apply evp_for_supported in Hsize as [evp Hevp].
  pose proof (icm_at_lt _ _ _ Hs) as Hlt.
  pose proof (set_iv_run w a s iv dir Hs ltac:(lia)) as Hrun.
  rewrite Hevp, firstn_all2 in Hrun by lia. cbn zeta in Hrun.
  cbn [counter set_counter] in Hrun.
  eexists evp, _. split; [done|]. cbn zeta.
  split; [exact Hrun|].
  split; [by apply icm_at_put_eq|].
  split; [done|].
  split; [by apply v128_xor_length|].
  split; [intros; by apply v128_xor_lookup|].
  split.
  - intros dir'.
    by rewrite (set_iv_run w a s iv dir'), (set_iv_run w a s iv dir) by (done || lia).
  - intros w2 a2 s2 dir2 st2 w2' Hs2 Hoff H2.
    rewrite (set_iv_run w2 a2 s2 iv dir2 Hs2) in H2 by lia.
    rewrite firstn_all2, Hoff in H2 by lia. cbn zeta in H2.
    pose proof (icm_at_lt _ _ _ Hs2).
    destruct (evp_for (key_size s2)); simplify_eq; by rewrite icm_at_put_eq.
Qed.

(** C5 (as the code has it): after set_iv on an initialized context the
    last two octets of the counter are those of the nonce; they are zero
    exactly when the nonce's are. *)
Theorem set_iv_counter_trailing_octets w a s iv dir :
  icm_at w a = Some s -> initialized s -> length iv = 16%nat ->
  exists st w' s',
    srtp_aes_icm_openssl_set_iv (Some a) iv dir w = Some (st, w') /\
    icm_at w' a = Some s' /\
    counter s' !! 14%nat = iv !! 14%nat /\
    counter s' !! 15%nat = iv !! 15%nat.
Proof.
  intros Hs (_ & Ho14 & Ho15) Hiv.
  pose proof (icm_at_lt _ _ _ Hs) as Hlt.
  pose proof (set_iv_run w a s iv dir Hs ltac:(lia)) as Hrun.
  rewrite firstn_all2 in Hrun by lia. cbn zeta in Hrun.
  destruct (evp_for (key_size s)) as [evp|];
    eexists _, _, _; (split; [exact Hrun|]);
    (split; [by apply icm_at_put_eq|]); cbn;
    by rewrite !v128_xor_zero_octet.
Qed.

(** C9: set_iv writes the counter before it can fail.  On a live context
    of any key size, the counter after the call is offset XOR nonce
    whatever the status; an unsupported key size gives bad_param without
    any call of the primitive, and a failing EVP_EncryptInit_ex gives
    fail. *)
Theorem set_iv_failure_keeps_new_counter w a s iv dir :
  icm_at w a = Some s -> length iv = 16%nat ->
  exists st w' s',
    srtp_aes_icm_openssl_set_iv (Some a) iv dir w = Some (st, w') /\
    icm_at w' a = Some s' /\
    (~ supported_key_size (key_size s) ->
       st = srtp_err_status_bad_param /\ ctx s' = ctx s /\ trace w' = trace w) /\
    (forall evp,
       evp_for (key_size s) = Some evp ->
       fst (EVP_EncryptInit_ex (ctx s) evp (key s) (v128_xor (offset s) iv)) = false ->
       st = srtp_err_status_fail) /\
    (st <> srtp_err_status_ok -> counter s' = v128_xor (offset s) iv).
Proof.
  intros Hs Hiv.
  pose proof (icm_at_lt _ _ _ Hs) as Hlt.
  pose proof (set_iv_run w a s iv dir Hs ltac:(lia)) as Hrun.
  rewrite firstn_all2 in Hrun by lia. cbn zeta in Hrun.
  cbn [counter set_counter] in Hrun.
  destruct (evp_for (key_size s)) as [evp|] eqn:Hevp;
    eexists _, _, _; (split; [exact Hrun|]);
    (split; [by apply icm_at_put_eq|]); cbn.
  - split; [|split; [|done]].
    + intros Hn. destruct Hn. apply evp_for_supported. eauto.
    + intros evp' [= <-] Hf. by rewrite Hf.
  - split; [|split; [|done]].
    + intros _. by rewrite app_nil_r.
    + intros evp' [=].
Qed.

End SetIv.

(** ** context_init: key and salt set-up *)

Section ContextInit.
Context `{Ext : Externals}.

Lemma salt_block (salt : list Z) :
  length salt = 14%nat ->
  <[14%nat := 0]> (<[15%nat := 0]> (memcpy (replicate 16 0) salt)) = salt ++ [0; 0].
Proof.
  intros H. unfold memcpy. rewrite H. cbn [replicate drop].
  rewrite !insert_app_r_alt, H by (rewrite ?length_insert, ?length_app; cbn; lia).
  done.
Qed.

Lemma key_first_slot (k kbuf : list Z) :
  (16 <= length kbuf)%nat ->
  memcpy_at k 0 (take 16 kbuf) = take 16 kbuf ++ drop 16 k.
Proof.
  intros H. unfold memcpy_at, memcpy. rewrite length_take_le by lia. done.
Qed.

Lemma key_both_slots (k kbuf : list Z) :
  length k = 32%nat -> (32 <= length kbuf)%nat ->
  memcpy_at (take 16 kbuf ++ drop 16 k) 16 (take 16 (drop 16 kbuf)) = take 32 kbuf.
Proof.
  intros Hk H. unfold memcpy_at, memcpy.
  rewrite take_app_length', drop_app_length' by (rewrite length_take; lia).
  rewrite length_take_le by (rewrite length_drop; lia).
  rewrite drop_drop, (drop_ge k) by lia.
  by rewrite app_nil_r, take_take_drop.
Qed.

Lemma evp_ctx_cleanup_run w a s :
  icm_at w a = Some s ->
  evp_ctx_cleanup (Some a) w =
    Some (tt, put a (Obj_icm (set_ctx (EVP_CIPHER_CTX_cleanup (ctx s)) s))
                  [Ev_EVP_CIPHER_CTX_cleanup a (ctx s)] w).
Proof.
  intros Hs. unfold evp_ctx_cleanup.
  erewrite bind_run by (apply load_icm_run, Hs).
  erewrite bind_run by (eapply store_run, icm_at_live, Hs).
  by rewrite emit_put.
Qed.

(** context_init on an allocated context and a buffer that holds key and
    salt. *)
Lemma context_init_run w a s kbuf :
  icm_at w a = Some s -> allocated s ->
  key_size s + SRTP_SALT_SIZE <= Z.of_nat (length kbuf) ->
  srtp_aes_icm_openssl_context_init (Some a) kbuf w =
    let salt := take 14 (drop (Z.to_nat (key_size s)) kbuf) in
    Some (srtp_err_status_ok,
          put a (Obj_icm
                   {| counter := salt ++ [0; 0];
                      offset := salt ++ [0; 0];
                      key := if key_size s =? 16 then take 16 kbuf ++ drop 16 (key s)
                             else take 32 kbuf;
                      key_size := key_size s;
                      ctx := EVP_CIPHER_CTX_cleanup (ctx s) |})
              [Ev_EVP_CIPHER_CTX_cleanup a (ctx s)] w).
Proof.
  intros Hs [(Hc & Ho & Hk) Hsize] Hlen. unfold SRTP_SALT_SIZE in Hlen.
  pose proof (icm_at_lt _ _ _ Hs) as Hlt.
  assert (octets kbuf (key_size s) 14 = Some (take 14 (drop (Z.to_nat (key_size s)) kbuf)))
    as Hsalt.
  { unfold octets. rewrite andb_true_intro; [done|].
    unfold supported_key_size in Hsize. split; apply Z.leb_le; lia. }
  pose proof (octets_length _ _ _ _ Hsalt) as Hsl.
  unfold srtp_aes_icm_openssl_context_init.
  erewrite bind_run by (apply load_icm_run, Hs).
  cbn [key_size counter offset key ctx set_counter set_offset set_key].
  change (Z.to_nat SRTP_SALT_SIZE) with 14%nat.
  change (Z.to_nat (SRTP_SALT_SIZE + 1)) with 15%nat.
  erewrite bind_run by (apply lift_run, Hsalt).
  cbn [key_size counter offset key ctx set_counter set_offset set_key].
  unfold v128_set_to_zero. rewrite salt_block by done.
  erewrite bind_run
    by (apply lift_run, octets_0; unfold supported_key_size in Hsize; lia).
  cbn [key_size counter offset key ctx set_counter set_offset set_key].
  rewrite key_first_slot by (unfold supported_key_size in Hsize; lia).
  unfold SRTP_AES_256_KEYSIZE, SRTP_AES_192_KEYSIZE, SRTP_AES_128_KEYSIZE.
  assert (forall S,
    (let* _ := store (Some a) (Obj_icm S) in
     let* _ := evp_ctx_cleanup (Some a) in ret srtp_err_status_ok) w =
    Some (srtp_err_status_ok,
          put a (Obj_icm (set_ctx (EVP_CIPHER_CTX_cleanup (ctx S)) S))
              [Ev_EVP_CIPHER_CTX_cleanup a (ctx S)] w)) as Htail.
  { intros S.
    erewrite bind_run by (eapply store_run, icm_at_live, Hs).
    erewrite bind_run by (apply evp_ctx_cleanup_run, icm_at_put_eq, Hlt).
    by rewrite put_put. }
  destruct Hsize as [E | [E | E]]; rewrite E; cbn [Z.eqb Pos.eqb orb].
  - unfold bind at 1, ret at 1. rewrite Htail. unfold set_ctx, set_key, set_counter, set_offset.
    cbn [key_size counter offset key ctx]. by rewrite ?E.
  - erewrite bind_run.
    2:{ erewrite bind_run by (apply lift_run; unfold v128_copy_octet_string, octets;
          rewrite andb_true_intro; [done|split; apply Z.leb_le; lia]).
        done. }
    cbn [key_size counter offset key ctx set_counter set_offset set_key].
    rewrite key_both_slots by (done || lia). rewrite Htail. unfold set_ctx, set_key, set_counter, set_offset.
    cbn [key_size counter offset key ctx]. by rewrite ?E.
  - erewrite bind_run.
    2:{ erewrite bind_run by (apply lift_run; unfold v128_copy_octet_string, octets;
          rewrite andb_true_intro; [done|split; apply Z.leb_le; lia]).
        done. }
    cbn [key_size counter offset key ctx set_counter set_offset set_key].
    rewrite key_both_slots by (done || lia). rewrite Htail. unfold set_ctx, set_key, set_counter, set_offset.
    cbn [key_size counter offset key ctx]. by rewrite ?E.
Qed.

End ContextInit.

Section ContextInitProperties.
Context `{Ext : Externals}.

Lemma salt_block_trailing (salt : list Z) :
  length salt = 14%nat ->
  (salt ++ [0; 0]) !! 14%nat = Some 0 /\ (salt ++ [0; 0]) !! 15%nat = Some 0.
Proof.
  intros H. rewrite !lookup_app_r, H by lia. done.
Qed.

(** C3: on an allocated context and a buffer of at least key_size + 14
    octets, context_init returns ok; counter and offset are the 14 salt
    octets (those following the key) and two zero octets, whatever they
    held before; the first key_size octets of the key storage are the key;
    for the key sizes above 16 the second 16-octet slot holds octets
    16..31 of the buffer, and for key size 16 it is left as it was. *)
Theorem context_init_sets_salt_and_key w a s kbuf :
  icm_at w a = Some s -> allocated s ->
  key_size s + SRTP_SALT_SIZE <= Z.of_nat (length kbuf) ->
  exists w' s',
    srtp_aes_icm_openssl_context_init (Some a) kbuf w = Some (srtp_err_status_ok, w') /\
    icm_at w' a = Some s' /\
    let ks := Z.to_nat (key_size s) in
    let salt := take 14 (drop ks kbuf) in
    length salt = 14%nat /\
    counter s' = salt ++ [0; 0] /\
    offset s' = salt ++ [0; 0] /\
    take ks (key s') = take ks kbuf /\
    (16 < key_size s -> take 16 (drop 16 (key s')) = take 16 (drop 16 kbuf)) /\
    (key_size s = 16 -> drop 16 (key s') = drop 16 (key s)) /\
    length (key s') = 32%nat /\
    key_size s' = key_size s /\
    ctx s' = EVP_CIPHER_CTX_cleanup (ctx s) /\
    initialized s'.
Proof.
  intros Hs Ha Hlen. pose proof (context_init_run w a s kbuf Hs Ha Hlen) as Hrun.
  pose proof (icm_at_lt _ _ _ Hs) as Hlt.
  destruct Ha as [(Hc & Ho & Hk) Hsize]. unfold SRTP_SALT_SIZE in Hlen.
  cbn zeta in Hrun. eexists _, _. split; [exact Hrun|].
  split; [by apply icm_at_put_eq|]. cbn.
  assert (length (take 14 (drop (Z.to_nat (key_size s)) kbuf)) = 14%nat) as Hsl.
  { rewrite length_take, length_drop. unfold supported_key_size in Hsize. lia. }
  assert (length (if key_size s =? 16 then take 16 kbuf ++ drop 16 (key s)
                  else take 32 kbuf) = 32%nat) as Hkl.
  { destruct Hsize as [E | [E | E]]; rewrite E; cbn;
      rewrite ?length_app, ?length_take, ?length_drop; lia. }
  split; [done|]. split; [done|]. split; [done|].
  split.
  { destruct Hsize as [E | [E | E]]; rewrite E; cbn.
    - rewrite take_app_length'; [done|]. rewrite length_take; lia.
    - rewrite take_take. done.
    - rewrite take_take. done. }
  split.
  { intros Hgt. destruct (Z.eqb_spec (key_size s) 16); [lia|].
    by rewrite !take_drop_commute, take_take. }
  split.
  { intros E. rewrite E. cbn. rewrite drop_app_length'; [done|].
    rewrite length_take; lia. }
  split; [done|]. split; [done|]. split; [done|].
  split; [split; [|done]|].
  - split; [|split]; cbn; [by rewrite length_app, Hsl ..|done].
  - cbn. by apply salt_block_trailing.
Qed.

(** Whenever context_init returns, the last two octets of the offset are
    zero. *)
Lemma context_init_post p kbuf w st w' :
  srtp_aes_icm_openssl_context_init p kbuf w = Some (st, w') ->
  exists a s', p = Some a /\ icm_at w' a = Some s' /\
    offset s' !! 14%nat = Some 0 /\ offset s' !! 15%nat = Some 0.
Proof.
  unfold srtp_aes_icm_openssl_context_init.
  intros (s & w1 & (a & -> & -> & Hs)%load_icm_pre & H)%bind_pre.
  pose proof (icm_at_lt _ _ _ Hs) as Hlt.
  apply bind_pre in H as (salt & w2 & [Hsalt ->]%lift_pre & H).
  apply octets_length in Hsalt.
  apply bind_pre in H as (k0 & w3 & [Hk0 ->]%lift_pre & H).
  apply bind_pre in H as (S & w4 & HS & H).
  change (Z.to_nat SRTP_SALT_SIZE) with 14%nat in *.
  change (Z.to_nat (SRTP_SALT_SIZE + 1)) with 15%nat in *.
  assert (w4 = w /\ offset S = salt ++ [0; 0]) as [-> HoS].
  { revert HS. cbn [key_size counter offset key ctx set_counter set_offset set_key].
    unfold v128_set_to_zero. rewrite salt_block by done.
    case_match.
    - intros (k1 & w5 & [_ ->]%lift_pre & HS)%bind_pre.
      unfold ret in HS. by simplify_eq.
    - unfold ret. intros; by simplify_eq. }
  erewrite bind_run in H by (eapply store_run, icm_at_live, Hs).
  erewrite bind_run in H by (apply evp_ctx_cleanup_run, icm_at_put_eq, Hlt).
  unfold ret in H. simplify_eq. rewrite put_put.
  eexists a, _. split; [done|]. split; [by apply icm_at_put_eq|].
  cbn. rewrite HoS. by apply salt_block_trailing.
Qed.

End ContextInitProperties.

(** Cells at the end of the heap. *)
Lemma lookup_end0 {A} (h l : list A) : (h ++ l) !! length h = l !! 0%nat.
Proof. rewrite lookup_app_r by lia. by rewrite Nat.sub_diag. Qed.

Lemma lookup_end1 {A} (h l : list A) : (h ++ l) !! S (length h) = l !! 1%nat.
Proof. rewrite lookup_app_r by lia. f_equal. lia. Qed.

Lemma insert_end0 {A} (h l : list A) x :
  <[length h := x]> (h ++ l) = h ++ <[0%nat := x]> l.
Proof. rewrite insert_app_r_alt by lia. by rewrite Nat.sub_diag. Qed.

Lemma insert_end1 {A} (h l : list A) x :
  <[S (length h) := x]> (h ++ l) = h ++ <[1%nat := x]> l.
Proof. rewrite insert_app_r_alt by lia. do 2 f_equal. lia. Qed.

Ltac heap_end :=
  unfold put, cipher_at, icm_at; cbn [heap oom trace];
  rewrite ?length_app, ?length_insert, ?Nat.add_1_r, <- ?app_assoc;
  cbn [length app];
  rewrite ?insert_end0, ?insert_end1, ?lookup_end0, ?lookup_end1;
  cbn [list_insert lookup list_lookup insert app].

Ltac eval_eqb :=
  repeat match goal with
    | |- context [Z.eqb ?x ?y] =>
        let v := eval vm_compute in (Z.eqb x y) in change (Z.eqb x y) with v
    end; cbv iota.

(** ** alloc: key-length check and construction *)

Section Alloc.
Context `{Ext : Externals}.

Lemma update_cipher_run w a c f :
  cipher_at w a = Some c ->
  update_cipher (Some a) f w = Some (tt, put a (Obj_cipher (f c)) [] w).
Proof.
  intros Hc. unfold update_cipher.
  erewrite bind_run by (apply load_cipher_run, Hc).
  eapply store_run, cipher_at_live, Hc.
Qed.

Lemma update_icm_run w a s f :
  icm_at w a = Some s ->
  update_icm (Some a) f w = Some (tt, put a (Obj_icm (f s)) [] w).
Proof.
  intros Hs. unfold update_icm.
  erewrite bind_run by (apply load_icm_run, Hs).
  eapply store_run, icm_at_live, Hs.
Qed.

Lemma evp_ctx_init_run w a s :
  icm_at w a = Some s ->
  evp_ctx_init (Some a) w =
    Some (tt, put a (Obj_icm (set_ctx (EVP_CIPHER_CTX_init (ctx s)) s))
                  [Ev_EVP_CIPHER_CTX_init a] w).
Proof.
  intros Hs. unfold evp_ctx_init.
  erewrite bind_run by (apply load_icm_run, Hs).
  erewrite bind_run by (eapply store_run, icm_at_live, Hs).
  by rewrite emit_put.
Qed.

Lemma srtp_crypto_alloc_run w :
  oom w !! 0%nat <> Some true ->
  srtp_crypto_alloc w =
    Some (Some (length (heap w)),
          {| heap := heap w ++ [{| live := true; obj := Uninit |}];
             oom := tail (oom w);
             trace := trace w ++ [Ev_srtp_crypto_alloc (Some (length (heap w)))] |}).
Proof.
  unfold srtp_crypto_alloc. by destruct (oom w) as [|[] ?].
Qed.

Lemma srtp_crypto_alloc_oom w :
  oom w !! 0%nat = Some true ->
  srtp_crypto_alloc w =
    Some (NULL, {| heap := heap w; oom := tail (oom w);
                   trace := trace w ++ [Ev_srtp_crypto_alloc NULL] |}).
Proof.
  unfold srtp_crypto_alloc. by destruct (oom w) as [|[] ?].
Qed.

Lemma srtp_crypto_free_run w a o :
  heap w !! a = Some {| live := true; obj := o |} ->
  srtp_crypto_free (Some a) w =
    Some (tt, {| heap := <[a := {| live := false; obj := o |}]> (heap w);
                 oom := oom w;
                 trace := trace w ++ [Ev_srtp_crypto_free a] |}).
Proof. intros H. unfold srtp_crypto_free. by rewrite H. Qed.

Lemma class_of_key_len_ifs (key_len : Z) :
  negb (key_len =? SRTP_AES_128_KEYSIZE_WSALT) &&
  negb (key_len =? SRTP_AES_192_KEYSIZE_WSALT) &&
  negb (key_len =? SRTP_AES_256_KEYSIZE_WSALT) =
  bool_decide (class_of_key_len key_len = None).
Proof.
  change SRTP_AES_128_KEYSIZE_WSALT with 30.
  change SRTP_AES_192_KEYSIZE_WSALT with 38.
  change SRTP_AES_256_KEYSIZE_WSALT with 46.
  destruct (Z.eqb_spec key_len 30) as [->|]; [done|].
  destruct (Z.eqb_spec key_len 38) as [->|]; [done|].
  destruct (Z.eqb_spec key_len 46) as [->|]; [done|].
  cbn. symmetry. apply bool_decide_eq_true.
  unfold class_of_key_len. repeat case_match; try done; lia.
Qed.

Lemma class_of_key_len_Some key_len :
  (key_len = 30 \/ key_len = 38 \/ key_len = 46) <-> is_Some (class_of_key_len key_len).
Proof.
  split.
  - intros [-> | [-> | ->]]; cbn; eauto.
  - intros [e He]. unfold class_of_key_len in He.
    repeat case_match; simplify_eq; lia.
Qed.

(** An invalid key length: nothing is touched. *)
Lemma alloc_run_bad_param c key_len tlen w :
  class_of_key_len key_len = None ->
  srtp_aes_icm_openssl_alloc c key_len tlen w = Some (srtp_err_status_bad_param, c, w).
Proof.
  intros H. unfold srtp_aes_icm_openssl_alloc.
  rewrite class_of_key_len_ifs, bool_decide_eq_true_2 by done. done.
Qed.

Lemma class_of_key_len_cases key_len alg ty ks :
  class_of_key_len key_len = Some (alg, ty, ks) ->
  (key_len = 30 /\ (alg, ty, ks) = (SRTP_AES_128_ICM, addr_srtp_aes_icm, 16)) \/
  (key_len = 38 /\ (alg, ty, ks) = (SRTP_AES_192_ICM, addr_srtp_aes_icm_192, 24)) \/
  (key_len = 46 /\ (alg, ty, ks) = (SRTP_AES_256_ICM, addr_srtp_aes_icm_256, 32)).
Proof.
  unfold class_of_key_len. intros; repeat case_match; simplify_eq; auto.
Qed.

(** A valid key length with memory for both structures. *)
Lemma alloc_run_ok c key_len tlen w alg ty ks :
  class_of_key_len key_len = Some (alg, ty, ks) ->
  memory_available 2 w ->
  srtp_aes_icm_openssl_alloc c key_len tlen w =
    Some (srtp_err_status_ok, Some (length (heap w)),
          alloc_ok_world w key_len alg ty ks).
Proof.
  intros Hclass Hmem. unfold srtp_aes_icm_openssl_alloc.
  pose proof (class_of_key_len_cases _ _ _ _ Hclass) as Hcase.
  rewrite class_of_key_len_ifs, bool_decide_eq_false_2 by congruence.
  pose proof (Hmem 0%nat ltac:(lia)) as H0.
  pose proof (Hmem 1%nat ltac:(lia)) as H1.
  destruct w as [h oo tr]. cbn [oom] in H0, H1.
  erewrite bind_run by (by apply srtp_crypto_alloc_run).
  cbn [heap oom trace].
  erewrite bind_run by (eapply store_run; cbn [heap]; by rewrite lookup_end0).
  heap_end.
  erewrite bind_run by (apply srtp_crypto_alloc_run; cbn [oom]; by rewrite lookup_tail).
  heap_end.
  erewrite bind_run by (eapply store_run; cbn [heap]; by rewrite lookup_end1).
  heap_end.
  erewrite bind_run by (eapply update_cipher_run; by heap_end).
  heap_end.
  destruct Hcase as [[-> [= -> -> ->]] | [[-> [= -> -> ->]] | [-> [= -> -> ->]]]];
    eval_eqb.
  all: erewrite bind_run;
    [| erewrite bind_run by (eapply update_cipher_run; by heap_end); heap_end;
       erewrite bind_run by (eapply update_cipher_run; by heap_end); heap_end;
       eapply update_icm_run; by heap_end ].
  all: heap_end.
  all: erewrite bind_run by (eapply update_cipher_run; by heap_end); heap_end.
  all: erewrite bind_run by (eapply evp_ctx_init_run; by heap_end); heap_end.
  all: unfold ret, alloc_ok_world; cbn [heap oom trace]; rewrite <- ?app_assoc;
    cbn [app].
  all: done.
Qed.

(** No memory for the cipher structure. *)
Lemma alloc_run_oom_first c key_len tlen w :
  is_Some (class_of_key_len key_len) ->
  oom w !! 0%nat = Some true ->
  srtp_aes_icm_openssl_alloc c key_len tlen w =
    Some (srtp_err_status_alloc_fail, NULL,
          {| heap := heap w; oom := tail (oom w);
             trace := trace w ++ [Ev_srtp_crypto_alloc NULL] |}).
Proof.
  intros [x Hclass] H0. unfold srtp_aes_icm_openssl_alloc.
  rewrite class_of_key_len_ifs, bool_decide_eq_false_2 by congruence.
  erewrite bind_run by (by apply srtp_crypto_alloc_oom). done.
Qed.

(** No memory for the context: the cipher structure is released again. *)
Lemma alloc_run_oom_second c key_len tlen w :
  is_Some (class_of_key_len key_len) ->
  oom w !! 0%nat <> Some true ->
  oom w !! 1%nat = Some true ->
  srtp_aes_icm_openssl_alloc c key_len tlen w =
    Some (srtp_err_status_alloc_fail, NULL,
          {| heap := heap w ++ [{| live := false; obj := Obj_cipher zero_cipher |}];
             oom := tail (tail (oom w));
             trace := trace w ++ [Ev_srtp_crypto_alloc (Some (length (heap w)));
                                  Ev_srtp_crypto_alloc NULL;
                                  Ev_srtp_crypto_free (length (heap w))] |}).
Proof.
  intros [x Hclass] H0 H1. unfold srtp_aes_icm_openssl_alloc.
  rewrite class_of_key_len_ifs, bool_decide_eq_false_2 by congruence.
  destruct w as [h oo tr]. cbn [oom heap trace] in *.
  erewrite bind_run by (by apply srtp_crypto_alloc_run).
  cbn [heap oom trace].
  erewrite bind_run by (eapply store_run; cbn [heap]; by rewrite lookup_end0).
  heap_end.
  erewrite bind_run by (apply srtp_crypto_alloc_oom; cbn [oom]; by rewrite lookup_tail).
  cbn [heap oom trace].
  erewrite bind_run by (eapply srtp_crypto_free_run; cbn [heap]; by rewrite lookup_end0).
  heap_end. unfold ret. by rewrite <- ?app_assoc.
Qed.

(** C4: alloc always returns.  A key length other than 30, 38 and 46
    gives bad_param and touches neither [*c] nor the world: no structure
    is created.  A status of ok implies a key length of 30, 38 or 46, a
    cipher bound to the matching algorithm identifier and function table
    with that key length, and a context of the matching key size whose
    counter, offset and key are all zero and whose EVP context is the
    initialised zero context.  With memory for the two structures a valid
    key length does give ok. *)
Theorem alloc_checks_key_len c key_len tlen w :
  exists st c' w',
    srtp_aes_icm_openssl_alloc c key_len tlen w = Some (st, c', w') /\
    (key_len <> 30 -> key_len <> 38 -> key_len <> 46 ->
       st = srtp_err_status_bad_param /\ c' = c /\ w' = w) /\
    (st = srtp_err_status_ok ->
       (key_len = 30 \/ key_len = 38 \/ key_len = 46) /\
       exists alg ty ks a i,
         class_of_key_len key_len = Some (alg, ty, ks) /\
         c' = Some a /\
         cipher_at w' a =
           Some {| type := ty; state := Some i; key_len := key_len; algorithm := alg |} /\
         icm_at w' i =
           Some {| counter := replicate 16 0; offset := replicate 16 0;
                   key := replicate 32 0; key_size := ks;
                   ctx := EVP_CIPHER_CTX_init EVP_CIPHER_CTX_zero |} /\
         (forall b : nat, (b < length (heap w))%nat -> heap w' !! b = heap w !! b)) /\
    ((key_len = 30 \/ key_len = 38 \/ key_len = 46) -> memory_available 2 w ->
       st = srtp_err_status_ok).
Proof.
  destruct (class_of_key_len key_len) as [[[alg ty] ks]|] eqn:Hclass.
  - assert (key_len = 30 \/ key_len = 38 \/ key_len = 46) as Hk
      by (apply class_of_key_len_Some; eauto).
    destruct (decide (oom w !! 0%nat = Some true)) as [H0|H0];
      [|destruct (decide (oom w !! 1%nat = Some true)) as [H1|H1]].
    + eexists _, _, _. split; [apply alloc_run_oom_first; eauto|].
      split; [lia|]. split; [done|].
      intros _ Hmem. by destruct (Hmem 0%nat ltac:(lia)).
    + eexists _, _, _. split; [apply alloc_run_oom_second; eauto|].
      split; [lia|]. split; [done|].
      intros _ Hmem. by destruct (Hmem 1%nat ltac:(lia)).
    + assert (memory_available 2 w) as Hmem.
      { intros [|[|i]] Hi; [done..|lia]. }
      eexists _, _, _. split; [by apply alloc_run_ok|].
      split; [lia|]. split; [|done].
      intros _. split; [done|].
      exists alg, ty, ks, (length (heap w)), (S (length (heap w))).
      split; [done|]. split; [done|].
      unfold alloc_ok_world.
      split; [by heap_end|]. split; [by heap_end|].
      intros b Hb. cbn [heap]. by rewrite lookup_app_l.
  - assert (~ (key_len = 30 \/ key_len = 38 \/ key_len = 46)) as Hk.
    { intros [x Hx]%class_of_key_len_Some. congruence. }
    eexists _, _, _. split; [by apply alloc_run_bad_param|].
    split; [done|]. split; [done|]. intros; tauto.
Qed.

End Alloc.

(** ** dealloc: teardown *)

Section Dealloc.
Context `{Ext : Externals}.

Lemma octet_string_set_to_zero_run w a s :
  icm_at w a = Some s ->
  octet_string_set_to_zero (Some a) w =
    Some (tt, put a (Obj_icm zero_icm) [Ev_octet_string_set_to_zero a] w).
Proof.
  intros Hs. unfold octet_string_set_to_zero.
  erewrite bind_run by (apply load_icm_run, Hs).
  erewrite bind_run by (eapply store_run, icm_at_live, Hs).
  by rewrite emit_put.
Qed.

(** C7 (as the code has it): dealloc of a null cipher pointer changes
    nothing and reports bad_param. *)
Theorem dealloc_null_is_bad_param w :
  srtp_aes_icm_openssl_dealloc NULL w = Some (srtp_err_status_bad_param, w).
Proof. reflexivity. Qed.

(** C8: for a live cipher whose state points to a live context, dealloc
    returns ok after calling EVP_CIPHER_CTX_cleanup on the context's EVP
    handle, overwriting the whole context with zero octets, and only then
    releasing it and the cipher: the released context cell holds zero in
    counter, offset, key, key size and EVP context.  No other cell
    changes. *)
Theorem dealloc_zeroizes_context w a ci q s :
  cipher_at w a = Some ci -> state ci = Some q -> icm_at w q = Some s ->
  exists w',
    srtp_aes_icm_openssl_dealloc (Some a) w = Some (srtp_err_status_ok, w') /\
    released_at w' q =
      Some (Obj_icm {| counter := replicate 16 0; offset := replicate 16 0;
                       key := replicate 32 0; key_size := 0;
                       ctx := EVP_CIPHER_CTX_zero |}) /\
    released_at w' a = Some (Obj_cipher ci) /\
    trace w' = trace w ++ [Ev_EVP_CIPHER_CTX_cleanup q (ctx s);
                           Ev_octet_string_set_to_zero q;
                           Ev_srtp_crypto_free q;
                           Ev_srtp_crypto_free a] /\
    (forall b : nat, b <> a -> b <> q -> heap w' !! b = heap w !! b).
Proof.
  intros Hc Hst Hs.
  pose proof (icm_at_lt _ _ _ Hs) as Hq.
  pose proof (cipher_at_live _ _ _ Hc) as Hlc.
  pose proof (lookup_lt_Some _ _ _ Hlc) as Ha.
  assert (a <> q) as Hne.
  { intros ->. apply icm_at_live in Hs. congruence. }
  unfold srtp_aes_icm_openssl_dealloc.
  erewrite bind_run by (apply load_cipher_run, Hc).
  rewrite Hst.
  erewrite bind_run.
  2:{ erewrite bind_run by (apply evp_ctx_cleanup_run, Hs).
      erewrite bind_run
        by (eapply octet_string_set_to_zero_run, icm_at_put_eq, Hq).
      rewrite put_put.
      eapply srtp_crypto_free_run. by apply put_live. }
  cbn [heap oom trace put].
  erewrite bind_run.
  2:{ eapply srtp_crypto_free_run. cbn [heap].
      rewrite list_insert_insert_eq, list_lookup_insert_ne by done. exact Hlc. }
  cbn [heap oom trace]. unfold ret. eexists. split; [done|].
  unfold released_at. cbn [heap trace].
  rewrite list_insert_insert_eq.
  split; [|split; [|split]].
  - rewrite list_lookup_insert_ne, list_lookup_insert_eq by done. done.
  - rewrite list_lookup_insert_eq by (by rewrite length_insert). done.
  - by rewrite <- !app_assoc.
  - intros b Hba Hbq. by rewrite !list_lookup_insert_ne.
Qed.

End Dealloc.

(** ** encrypt: the keystream is applied, the context keeps offset and key *)

Section Encrypt.
Context `{Ext : Externals}.

Lemma encrypt_pre p buf enc_len w r :
  srtp_aes_icm_openssl_encrypt p buf enc_len w = Some r ->
  exists a s, p = Some a /\ icm_at w a = Some s /\ enc_len <= Z.of_nat (length buf).
Proof.
  unfold srtp_aes_icm_openssl_encrypt.
  intros (s & w1 & (a & -> & -> & Hs)%load_icm_pre & H)%bind_pre.
  exists a, s. split; [done|]. split; [done|].
  destruct (Z.ltb_spec (Z.of_nat (length buf)) enc_len); [done|lia].
Qed.

Lemma put_after_emit a o evs e w :
  put a o evs {| heap := heap w; oom := oom w; trace := trace w ++ [e] |} =
  put a o (e :: evs) w.
Proof. unfold put; cbn. by rewrite <- app_assoc. Qed.

Lemma encrypt_run w a s buf enc_len :
  icm_at w a = Some s -> enc_len <= Z.of_nat (length buf) ->
  srtp_aes_icm_openssl_encrypt (Some a) buf enc_len w =
    let '(ok1, h1, b1, l1) := EVP_EncryptUpdate (ctx s) buf (int_of_uint enc_len) in
    if ok1 then
      let '(ok2, h2, b2, l2) := EVP_EncryptFinal_ex h1 b1 in
      Some (if ok2 then (srtp_err_status_ok, b2, uint_of_int (uint_of_int l1 + l2))
            else (srtp_err_status_cipher_fail, b2, uint_of_int l1),
            put a (Obj_icm (set_ctx h2 s))
                [Ev_EVP_EncryptUpdate a (int_of_uint enc_len); Ev_EVP_EncryptFinal_ex a] w)
    else
      Some ((srtp_err_status_cipher_fail, b1, enc_len),
            put a (Obj_icm (set_ctx h1 s)) [Ev_EVP_EncryptUpdate a (int_of_uint enc_len)] w).
Proof.
  intros Hs Hlen. pose proof (icm_at_lt _ _ _ Hs) as Hlt.
  unfold srtp_aes_icm_openssl_encrypt.
  erewrite bind_run by (apply load_icm_run, Hs).
  destruct (Z.ltb_spec (Z.of_nat (length buf)) enc_len); [lia|].
  destruct (EVP_EncryptUpdate _ _ _) as [[[ok1 h1] b1] l1].
  unfold emit at 1, bind at 1.
  erewrite bind_run by (eapply store_run, icm_at_live, Hs).
  rewrite put_after_emit. cbn [app ctx set_ctx].
  destruct ok1; cbn [negb]; [|done].
  destruct (EVP_EncryptFinal_ex _ _) as [[[ok2 h2] b2] l2].
  erewrite bind_run by apply emit_put.
  erewrite bind_run by (eapply store_run, put_live, Hlt).
  rewrite put_put. cbn [app].
  by destruct ok2.
Qed.

(** Whatever encrypt returns, it has only replaced the EVP context. *)
Lemma encrypt_post p buf enc_len w r w' :
  srtp_aes_icm_openssl_encrypt p buf enc_len w = Some (r, w') ->
  exists a s h evs,
    p = Some a /\ icm_at w a = Some s /\ w' = put a (Obj_icm (set_ctx h s)) evs w.
Proof.
  intros H. destruct (encrypt_pre _ _ _ _ _ H) as (a & s & -> & Hs & Hlen).
  rewrite (encrypt_run w a s buf enc_len Hs Hlen) in H.
  destruct (EVP_EncryptUpdate _ _ _) as [[[ok1 h1] b1] l1].
  destruct ok1.
  - destruct (EVP_EncryptFinal_ex _ _) as [[[ok2 h2] b2] l2].
    simplify_eq. by eexists a, s, _, _.
  - simplify_eq. by eexists a, s, _, _.
Qed.

(** Whatever set_iv returns, it has replaced the counter by offset XOR
    nonce and possibly the EVP context. *)
Lemma set_iv_post p iv dir w st w' :
  srtp_aes_icm_openssl_set_iv p iv dir w = Some (st, w') ->
  exists a s h evs,
    p = Some a /\ icm_at w a = Some s /\ (16 <= length iv)%nat /\
    w' = put a (Obj_icm (set_ctx h (set_counter (v128_xor (offset s) (take 16 iv)) s)))
             evs w.
Proof.
  intros H. destruct (set_iv_pre _ _ _ _ _ H) as (a & s & -> & Hs & Hlen).
  rewrite (set_iv_run w a s iv dir Hs Hlen) in H. cbn zeta in H.
  destruct (evp_for (key_size s)) as [evp|]; simplify_eq.
  - by eexists a, s, _, _.
  - by eexists a, s, (ctx s), _.
Qed.

End Encrypt.

(** ** The offset and the key are fixed once initialized *)

Section Invariant.
Context `{Ext : Externals}.

Lemma reachable_keeps_offset_and_key w0 w a s0 :
  icm_at w0 a = Some s0 -> reachable w0 w ->
  exists s, icm_at w a = Some s /\ offset s = offset s0 /\ key s = key s0 /\
            key_size s = key_size s0.
Proof.
  intros H0 Hr. induction Hr as [|w p iv dir st w' _ IH Hstep|w p buf len r w' _ IH Hstep].
  - by exists s0.
  - destruct IH as (s & Hs & Ho & Hk & Hz).
    apply set_iv_post in Hstep as (b & sb & h & evs & -> & Hb & _ & ->).
    destruct (decide (b = a)) as [->|Hne].
    + pose proof (icm_at_lt _ _ _ Hs) as Hlt. simplify_eq.
      eexists. split; [by apply icm_at_put_eq|]. done.
    + exists s. by rewrite icm_at_put_ne.
  - destruct IH as (s & Hs & Ho & Hk & Hz).
    apply encrypt_post in Hstep as (b & sb & h & evs & -> & Hb & ->).
    destruct (decide (b = a)) as [->|Hne].
    + pose proof (icm_at_lt _ _ _ Hs) as Hlt. simplify_eq.
      eexists. split; [by apply icm_at_put_eq|]. done.
    + exists s. by rewrite icm_at_put_ne.
Qed.

(** C10: once context_init has returned, the last two octets of the
    offset are zero, and in every world reached by calls of set_iv and of
    the encrypt/decrypt entry point the context is still there with the
    same offset and key; a further set_iv leaves them in place and yields
    a counter whose last two octets are those of the nonce, and a further
    encrypt leaves offset, key and counter in place. *)
Theorem offset_and_key_invariant p kbuf w_pre st w0 w :
  srtp_aes_icm_openssl_context_init p kbuf w_pre = Some (st, w0) ->
  reachable w0 w ->
  exists a s0 s,
    p = Some a /\ icm_at w0 a = Some s0 /\ icm_at w a = Some s /\
    offset s0 !! 14%nat = Some 0 /\ offset s0 !! 15%nat = Some 0 /\
    offset s = offset s0 /\ key s = key s0 /\
    (forall iv dir st' w',
        srtp_aes_icm_openssl_set_iv (Some a) iv dir w = Some (st', w') ->
        exists s', icm_at w' a = Some s' /\ offset s' = offset s0 /\ key s' = key s0 /\
                   counter s' !! 14%nat = iv !! 14%nat /\
                   counter s' !! 15%nat = iv !! 15%nat) /\
    (forall buf len r w',
        srtp_aes_icm_openssl_encrypt (Some a) buf len w = Some (r, w') ->
        exists s', icm_at w' a = Some s' /\ offset s' = offset s0 /\ key s' = key s0 /\
                   counter s' = counter s).
Proof.
  intros Hinit Hr.
  apply context_init_post in Hinit as (a & s0 & -> & Hs0 & H14 & H15).
  destruct (reachable_keeps_offset_and_key _ _ _ _ Hs0 Hr) as (s & Hs & Ho & Hk & _).
  exists a, s0, s. do 7 (split; [done|]).
  pose proof (icm_at_lt _ _ _ Hs) as Hlt. split.
  - intros iv dir st' w' Hstep.
    apply set_iv_post in Hstep as (b & sb & h & evs & [= <-] & Hb & Hiv & ->).
    simplify_eq. eexists. split; [by apply icm_at_put_eq|]. cbn.
    rewrite !v128_xor_zero_octet by congruence.
    by rewrite !lookup_take_lt by lia.
  - intros buf len r w' Hstep.
    apply encrypt_post in Hstep as (b & sb & h & evs & [= <-] & Hb & ->).
    simplify_eq. eexists. split; [by apply icm_at_put_eq|]. done.
Qed.

End Invariant.

(** ** One run of a cipher *)

Section Run.
Context `{Ext : Externals}.

Lemma cipher_types_alloc ct :
  ct ∈ cipher_types ->
  alloc ct = srtp_aes_icm_openssl_alloc.
Proof.
  unfold cipher_types. rewrite !elem_of_cons, elem_of_nil.
  intros [-> | [-> | [-> | []]]]; done.
Qed.

Lemma deref_type_functions ty t :
  deref_type ty = Some t ->
  t ∈ cipher_types /\
  init t = srtp_aes_icm_openssl_context_init /\
  set_iv t = srtp_aes_icm_openssl_set_iv /\
  encrypt t = srtp_aes_icm_openssl_encrypt /\
  decrypt t = srtp_aes_icm_openssl_encrypt.
Proof.
  unfold cipher_types.
  destruct ty; intros [= <-]; (split; [|done]);
    rewrite !elem_of_cons; auto.
Qed.

Lemma class_of_key_len_table key_len alg ty ks :
  class_of_key_len key_len = Some (alg, ty, ks) ->
  supported_key_size ks /\ ks + SRTP_SALT_SIZE = key_len /\ is_Some (deref_type ty).
Proof.
  intros [[-> [= -> -> ->]] | [[-> [= -> -> ->]] | [-> [= -> -> ->]]]]%class_of_key_len_cases;
    unfold supported_key_size; cbn; (split; [lia|]); eauto.
Qed.

(** With a valid key length, a buffer holding key and salt, a 16-octet
    nonce, memory for the two structures and a primitive that accepts the
    key, a run comes to its processing step with a context whose fields
    are fixed by key length, buffer and nonce alone. *)
Lemma cipher_run_reaches_process
    (process : srtp_cipher_type_t ->
               ptr -> list Z -> Z -> M (srtp_err_status_t * list Z * Z))
    ct klen kbuf nonce dir data len w alg ty ks evp :
  ct ∈ cipher_types ->
  class_of_key_len klen = Some (alg, ty, ks) ->
  klen <= Z.of_nat (length kbuf) ->
  length nonce = 16%nat ->
  memory_available 2 w ->
  evp_for ks = Some evp ->
  let i := S (length (heap w)) in
  let salt := take 14 (drop (Z.to_nat ks) kbuf) in
  let k := if ks =? 16 then take 16 kbuf ++ replicate 16 0 else take 32 kbuf in
  let c := v128_xor (salt ++ [0; 0]) nonce in
  let h0 := EVP_CIPHER_CTX_cleanup (EVP_CIPHER_CTX_init EVP_CIPHER_CTX_zero) in
  fst (EVP_EncryptInit_ex h0 evp k c) = true ->
  exists t w3,
    t ∈ cipher_types /\
    icm_at w3 i = Some {| counter := c; offset := salt ++ [0; 0]; key := k;
                          key_size := ks;
                          ctx := snd (EVP_EncryptInit_ex h0 evp k c) |} /\
    cipher_run process ct klen kbuf nonce dir data len w =
      process t (Some i) data len w3.
Proof.
  intros Hct Hclass Hkbuf Hnonce Hmem Hevp i salt k c h0 Hinit.
  destruct (class_of_key_len_table _ _ _ _ Hclass) as (Hks & Hsum & [t Ht]).
  destruct (deref_type_functions _ _ Ht) as (Htin & Hi & Hs & _).
  unfold cipher_run. rewrite (cipher_types_alloc ct Hct).
  erewrite bind_run by (by eapply alloc_run_ok).
  cbn [fst snd]. rewrite bool_decide_eq_true_2 by done. cbn [negb].
  erewrite bind_run by (apply load_cipher_run; unfold alloc_ok_world; by heap_end).
  cbn [type state].
  erewrite bind_run by (apply lift_run, Ht).
  rewrite Hi, Hs.
  set (s1 := {| counter := replicate 16 0; offset := replicate 16 0;
                key := replicate 32 0; key_size := ks;
                ctx := EVP_CIPHER_CTX_init EVP_CIPHER_CTX_zero |}).
  assert (icm_at (alloc_ok_world w klen alg ty ks) i = Some s1) as Hs1
    by (unfold alloc_ok_world, i; by heap_end).
  assert (allocated s1) as Ha1 by (split; [by repeat split|exact Hks]).
  erewrite bind_run by (apply (context_init_run _ _ s1); [done..|cbn; lia]).
  cbn zeta. rewrite bool_decide_eq_true_2 by done. cbn [negb key_size key ctx s1].
  pose proof (icm_at_lt _ _ _ Hs1) as Hlt.
  erewrite bind_eq by (apply set_iv_run; [by apply icm_at_put_eq|lia]).
  cbn [key_size offset key ctx counter set_counter]. rewrite Hevp.
  rewrite (firstn_all2 nonce) by lia. cbn zeta.
  fold salt. fold h0.
  replace (if ks =? 16 then take 16 kbuf ++ drop 16 (replicate 32 0) else take 32 kbuf)
    with k by done.
  fold c. rewrite Hinit.
  rewrite bool_decide_eq_true_2 by done. cbn [negb].
  eexists t, _. split; [done|]. split; [|done].
  rewrite put_put. by apply icm_at_put_eq.
Qed.

End Run.

(** ** Counter mode is its own inverse *)

Section CtrMode.
Context `{BC : BlockCipher}.

Lemma ctr_octet_state evp s b b' :
  fst (CTR.ctr_octet evp s b) = fst (CTR.ctr_octet evp s b').
Proof. done. Qed.

Lemma ctr_octet_twice evp s b :
  snd (CTR.ctr_octet evp s (snd (CTR.ctr_octet evp s b))) = b.
Proof.
  unfold CTR.ctr_octet. cbn [snd].
  by rewrite Z.lxor_assoc, Z.lxor_nilpotent, Z.lxor_0_r.
Qed.

Lemma ctr128_encrypt_length evp s data :
  length (snd (CTR.ctr128_encrypt evp s data)) = length data.
Proof.
  revert s. induction data as [|b data IH]; intros s; [done|].
  cbn [CTR.ctr128_encrypt].
  destruct (CTR.ctr_octet _ _ _) as [s1 o].
  specialize (IH s1). destruct (CTR.ctr128_encrypt _ _ _) as [s2 out].
  cbn in *. by rewrite IH.
Qed.

(** Applying the keystream twice from the same state gives the input
    back. *)
Lemma ctr128_encrypt_twice evp s data :
  snd (CTR.ctr128_encrypt evp s
         (snd (CTR.ctr128_encrypt evp s data))) = data.
Proof.
  revert s. induction data as [|b data IH]; intros s; [done|].
  cbn [CTR.ctr128_encrypt].
  pose proof (ctr_octet_twice evp s b) as Hb.
  pose proof (ctr_octet_state evp s b
                (snd (CTR.ctr_octet evp s b))) as Hs.
  destruct (CTR.ctr_octet evp s b) as [s1 o] eqn:E1.
  specialize (IH s1).
  destruct (CTR.ctr128_encrypt evp s1 data) as [s2 out] eqn:E2.
  cbn [snd fst CTR.ctr128_encrypt] in *.
  destruct (CTR.ctr_octet evp s o) as [s1' o'] eqn:E3.
  cbn [snd fst] in *. subst s1' o'.
  destruct (CTR.ctr128_encrypt evp s1 out) as [s3 out'] eqn:E4.
  cbn [snd] in *. by subst.
Qed.

Lemma int_of_uint_small n : 0 <= n < 2 ^ 31 -> int_of_uint n = n.
Proof.
  intros H. unfold int_of_uint. rewrite Z.mod_small by lia.
  destruct (Z.ltb_spec n (2 ^ 31)); lia.
Qed.

(** The processing entry point on a freshly seeded context: the whole
    buffer is XORed with the keystream and the length is unchanged. *)
Lemma ctr_encrypt_run w a s evp data :
  icm_at w a = Some s ->
  CTR.cipher (ctx s) = Some evp ->
  Z.of_nat (length data) < 2 ^ 31 ->
  exists w',
    srtp_aes_icm_openssl_encrypt (Some a) data (Z.of_nat (length data)) w =
      Some ((srtp_err_status_ok,
             snd (CTR.ctr128_encrypt evp (ctx s) data),
             Z.of_nat (length data)), w').
Proof.
  intros Hs Hc Hlen.
  rewrite (encrypt_run w a s data _ Hs) by lia.
  rewrite int_of_uint_small by lia.
  change (EVP_EncryptUpdate (ctx s) data (Z.of_nat (length data)))
    with (CTR.EncryptUpdate (ctx s) data (Z.of_nat (length data))).
  unfold CTR.EncryptUpdate. rewrite Hc.
  destruct (Z.leb_spec (Z.of_nat (length data)) 0) as [H0|H0].
  - assert (data = []) as -> by (destruct data; [done|cbn in H0; lia]).
    cbn. eauto.
  - rewrite Nat2Z.id, firstn_all, drop_all.
    destruct (CTR.ctr128_encrypt _ _ _) as [s' out]. rewrite app_nil_r.
    change (@EVP_EncryptFinal_ex CTR.externals s' out)
      with (CTR.EncryptFinal_ex s' out).
    unfold CTR.EncryptFinal_ex, uint_of_int. cbn [snd].
    rewrite Z.add_0_r, Z.mod_mod, Z.mod_small by lia. eauto.
Qed.

(** C6: for a table of this file, a key length of 30, 38 or 46, a buffer
    holding key and salt, a 16-octet nonce and a plaintext (shorter than
    2^31 octets, the range of the primitive's length argument), a run
    through the encrypt entry point succeeds, and a run of a fresh cipher
    on its output with the same key, salt and nonce, through the decrypt
    entry point, returns the plaintext, whatever the direction arguments;
    encrypt and decrypt are the same function in every table. *)
Theorem process_twice_recovers_plaintext ct klen kbuf nonce dir dir' data w1 w2 :
  ct ∈ cipher_types ->
  klen = 30 \/ klen = 38 \/ klen = 46 ->
  klen <= Z.of_nat (length kbuf) ->
  length nonce = 16%nat ->
  Z.of_nat (length data) < 2 ^ 31 ->
  memory_available 2 w1 ->
  memory_available 2 w2 ->
  exists out w1' w2',
    cipher_run encrypt ct klen kbuf nonce dir data (Z.of_nat (length data)) w1 =
      Some ((srtp_err_status_ok, out, Z.of_nat (length data)), w1') /\
    length out = length data /\
    cipher_run decrypt ct klen kbuf nonce dir' out (Z.of_nat (length out)) w2 =
      Some ((srtp_err_status_ok, data, Z.of_nat (length data)), w2') /\
    (forall t, t ∈ cipher_types -> encrypt t = decrypt t).
Proof.
  intros Hct [[[alg ty] ks] Hclass]%class_of_key_len_Some Hkbuf Hnonce Hlen Hm1 Hm2.
  destruct (class_of_key_len_table _ _ _ _ Hclass) as (Hks & _ & _).
  apply evp_for_supported in Hks as [evp Hevp].
  destruct (cipher_run_reaches_process encrypt ct klen kbuf nonce dir data
              (Z.of_nat (length data)) w1 alg ty ks evp
              Hct Hclass Hkbuf Hnonce Hm1 Hevp eq_refl)
    as (t1 & w3 & Ht1 & Hs1 & ->).
  assert (forall t, t ∈ cipher_types ->
            encrypt t = srtp_aes_icm_openssl_encrypt /\
            decrypt t = srtp_aes_icm_openssl_encrypt) as Htab.
  { intros t. unfold cipher_types. rewrite !elem_of_cons, elem_of_nil.
    intros [-> | [-> | [-> | []]]]; done. }
  destruct (Htab t1 Ht1) as [-> _].
  destruct (ctr_encrypt_run w3 _ _ evp data Hs1 eq_refl Hlen) as [w1' H1].
  cbn [ctx] in H1.
  match type of H1 with _ = Some ((_, ?o, _), _) => set (out := o) in * end.
  assert (length out = length data) as Hout by apply ctr128_encrypt_length.
  destruct (cipher_run_reaches_process decrypt ct klen kbuf nonce dir' out
              (Z.of_nat (length out)) w2 alg ty ks evp
              Hct Hclass Hkbuf Hnonce Hm2 Hevp eq_refl)
    as (t2 & w4 & Ht2 & Hs2 & Hrun2).
  destruct (Htab t2 Ht2) as [_ Hdec]. rewrite Hdec in Hrun2.
  destruct (ctr_encrypt_run w4 _ _ evp out Hs2 eq_refl ltac:(lia)) as [w2' H2].
  cbn [ctx] in H2.
  exists out, w1', w2'. split; [exact H1|]. split; [done|]. split.
  - rewrite Hrun2, H2. unfold out.
    by rewrite ctr128_encrypt_twice, ctr128_encrypt_length.
  - intros t Ht. destruct (Htab t Ht) as [-> ->]. done.
Qed.

End CtrMode.

(** ** Known answers *)

Section KnownAnswers.

#[local] Existing Instance openssl.

(** A table's known-answer run yields the fixture's ciphertext as soon as
    the AES-CTR keystream for the fixture's key, salt and nonce does. *)
Lemma known_answer_by_keystream ct tc dir w alg ty ks evp :
  ct ∈ cipher_types ->
  test_data ct = Some tc ->
  class_of_key_len (key_length_octets tc) = Some (alg, ty, ks) ->
  evp_for ks = Some evp ->
  key_length_octets tc <= Z.of_nat (length (tc_key tc)) ->
  length (idx tc) = 16%nat ->
  plaintext_length_octets tc = Z.of_nat (length (plaintext tc)) ->
  plaintext_length_octets tc < 2 ^ 31 ->
  snd (CTR.ctr128_encrypt (BC := aes) evp
         (snd (CTR.EncryptInit_ex CTR.zero_ctx evp
                 (if ks =? 16 then take 16 (tc_key tc) ++ replicate 16 0
                  else take 32 (tc_key tc))
                 (v128_xor (take 14 (drop (Z.to_nat ks) (tc_key tc)) ++ [0; 0])
                           (idx tc))))
         (plaintext tc)) = ciphertext tc ->
  memory_available 2 w ->
  exists w',
    known_answer_run ct dir w =
      Some ((srtp_err_status_ok, ciphertext tc, plaintext_length_octets tc), w').
Proof.
  intros Hct Htc Hclass Hevp Hkey Hidx Hpl Hlt Hks Hmem.
  unfold known_answer_run. rewrite Htc.
  destruct (cipher_run_reaches_process encrypt ct (key_length_octets tc)
              (tc_key tc) (idx tc) dir (plaintext tc)
              (plaintext_length_octets tc) w alg ty ks evp
              Hct Hclass Hkey Hidx Hmem Hevp eq_refl)
    as (t & w3 & Ht & Hs & ->).
  assert (encrypt t = srtp_aes_icm_openssl_encrypt) as ->.
  { revert Ht. unfold cipher_types. rewrite !elem_of_cons, elem_of_nil.
    intros [-> | [-> | [-> | []]]]; done. }
  rewrite Hpl in *.
  destruct (ctr_encrypt_run (BC := aes) w3 _ _ evp (plaintext tc) Hs eq_refl Hlt)
    as [w' H].
  exists w'. refine (eq_trans H _). cbn [ctx]. rewrite <- Hks. reflexivity.
Qed.

(** C1 (as the code has it): with memory for the two structures and any
    direction argument, the known-answer run of each of the three tables
    (allocate, initialize with the fixture's key and salt, set_iv with
    its nonce, encrypt its plaintext) returns ok and the fixture's
    ciphertext.  The fixtures are those of the source: all-zero nonces,
    32 zero octets of plaintext, and for AES-128 and AES-256 the keys and
    ciphertexts written out below. *)
Theorem known_answer_ciphertexts dir w :
  memory_available 2 w ->
  (exists w',
     known_answer_run srtp_aes_icm dir w =
       Some ((srtp_err_status_ok, srtp_aes_icm_test_case_0_ciphertext, 32), w')) /\
  (exists w',
     known_answer_run srtp_aes_icm_192 dir w =
       Some ((srtp_err_status_ok, srtp_aes_icm_192_test_case_1_ciphertext, 32), w')) /\
  (exists w',
     known_answer_run srtp_aes_icm_256 dir w =
       Some ((srtp_err_status_ok, srtp_aes_icm_256_test_case_2_ciphertext, 32), w')) /\
  hex_string srtp_aes_icm_test_case_0_key =
    "2b7e151628aed2a6abf7158809cf4f3cf0f1f2f3f4f5f6f7f8f9fafbfcfd"%string /\
  srtp_aes_icm_test_case_0_nonce = replicate 16 0 /\
  srtp_aes_icm_test_case_0_plaintext = replicate 32 0 /\
  hex_string srtp_aes_icm_test_case_0_ciphertext =
    "e03ead0935c95e80e166b16dd92b4eb4d23513162b02d0f72a43a2fe4a5f97ab"%string /\
  hex_string srtp_aes_icm_256_test_case_2_key =
    "57f82fe3613fd170a85ec93c40b1f0922ec4cb0dc025b58272147cc438944a98f0f1f2f3f4f5f6f7f8f9fafbfcfd"%string /\
  srtp_aes_icm_256_test_case_2_nonce = replicate 16 0 /\
  srtp_aes_icm_256_test_case_2_plaintext = replicate 32 0 /\
  hex_string srtp_aes_icm_256_test_case_2_ciphertext =
    "92bdd28a93c3f52511c677d08b5515a49da71b2378a854f67050756ded165bac"%string.
Proof.
  intros Hmem.
  split; [|split; [|split]].
  - apply (known_answer_by_keystream srtp_aes_icm srtp_aes_icm_test_case_0 dir w
             1 addr_srtp_aes_icm 16 EVP_aes_128_ctr);
      [unfold cipher_types; rewrite !elem_of_cons; auto
      |reflexivity|reflexivity|reflexivity|by vm_compute|reflexivity|reflexivity
      |reflexivity|by vm_compute|exact Hmem].
  - apply (known_answer_by_keystream srtp_aes_icm_192 srtp_aes_icm_192_test_case_1 dir w
             4 addr_srtp_aes_icm_192 24 EVP_aes_192_ctr);
      [unfold cipher_types; rewrite !elem_of_cons; auto
      |reflexivity|reflexivity|reflexivity|by vm_compute|reflexivity|reflexivity
      |reflexivity|by vm_compute|exact Hmem].
  - apply (known_answer_by_keystream srtp_aes_icm_256 srtp_aes_icm_256_test_case_2 dir w
             5 addr_srtp_aes_icm_256 32 EVP_aes_256_ctr);
      [unfold cipher_types; rewrite !elem_of_cons; auto
      |reflexivity|reflexivity|reflexivity|by vm_compute|reflexivity|reflexivity
      |reflexivity|by vm_compute|exact Hmem].
  - by vm_compute.
Qed.

End KnownAnswers.

(** ** The properties at concrete inputs *)

Section Concrete.

#[local] Existing Instance openssl.

(** The cipher example of FIPS 197, appendix B. *)
Example aes_128_fips_197_appendix_b :
  AES.Cipher 4 10
    [0x2b; 0x7e; 0x15; 0x16; 0x28; 0xae; 0xd2; 0xa6;
     0xab; 0xf7; 0x15; 0x88; 0x09; 0xcf; 0x4f; 0x3c]
    [0x32; 0x43; 0xf6; 0xa8; 0x88; 0x5a; 0x30; 0x8d;
     0x31; 0x31; 0x98; 0xa2; 0xe0; 0x37; 0x07; 0x34] =
    [0x39; 0x25; 0x84; 0x1d; 0x02; 0xdc; 0x09; 0xfb;
     0xdc; 0x11; 0x85; 0x97; 0x19; 0x6a; 0x0b; 0x32].
Proof. vm_compute. reflexivity. Qed.

Example alloc_then_init_example :
  srtp_aes_icm_openssl_alloc NULL 30 0 empty_world =
    Some ((srtp_err_status_ok, Some 0%nat), allocated_world) /\
  srtp_aes_icm_openssl_context_init (Some 1%nat) srtp_aes_icm_test_case_0_key
    allocated_world = Some (srtp_err_status_ok, example_world).
Proof. split; reflexivity. Qed.

Example set_iv_example :
  srtp_aes_icm_openssl_set_iv (Some 1%nat) example_nonce 0 example_world =
    Some (srtp_err_status_ok, example_world_iv).
Proof. reflexivity. Qed.

Lemma example_context_initialized : initialized example_context.
Proof. repeat split; try reflexivity. left. reflexivity. Defined.

Lemma empty_world_memory : memory_available 2 empty_world.
Proof. intros i _. cbn. by rewrite lookup_nil. Defined.

(** C1 at the empty world: the AES-128 known-answer run. *)
Lemma known_answer_ciphertexts_witness :
  memory_available 2 empty_world /\
  exists w',
    known_answer_run srtp_aes_icm 0 empty_world =
      Some ((srtp_err_status_ok, srtp_aes_icm_test_case_0_ciphertext, 32), w').
Proof.
  split; [exact empty_world_memory|].
  exact (proj1 (known_answer_ciphertexts 0 empty_world empty_world_memory)).
Defined.

(** C1 as stated fails for AES-256: the run returns the fixture's 32
    octets, whose hexadecimal form is not the string the specification
    quotes (65 digits, one too many). *)
Lemma known_answer_aes_256_differs_from_quote :
  (exists w',
     known_answer_run srtp_aes_icm_256 0 empty_world =
       Some ((srtp_err_status_ok, srtp_aes_icm_256_test_case_2_ciphertext, 32), w')) /\
  hex_string srtp_aes_icm_256_test_case_2_ciphertext <> quoted_aes_256_ciphertext /\
  String.length quoted_aes_256_ciphertext = 65%nat.
Proof.
  split.
  - apply (known_answer_by_keystream srtp_aes_icm_256 srtp_aes_icm_256_test_case_2
             0 empty_world 5 addr_srtp_aes_icm_256 32 EVP_aes_256_ctr);
      [unfold cipher_types; rewrite !elem_of_cons; auto
      |reflexivity|reflexivity|reflexivity|by vm_compute|reflexivity|reflexivity
      |reflexivity|by vm_compute|exact empty_world_memory].
  - split; [|reflexivity].
    apply String.eqb_neq. vm_compute. reflexivity.
Qed.

(** C2 at the example world. *)
Lemma set_iv_counter_is_offset_xor_nonce_witness :
  icm_at example_world 1 = Some example_context /\
  initialized example_context /\
  length example_nonce = 16%nat /\
  exists w',
    srtp_aes_icm_openssl_set_iv (Some 1%nat) example_nonce 0 example_world =
      Some (srtp_err_status_ok, w') /\
    counter <$> icm_at w' 1 = Some (v128_xor (offset example_context) example_nonce).
Proof.
  split; [reflexivity|]. split; [exact example_context_initialized|].
  split; [reflexivity|].
  destruct (set_iv_counter_is_offset_xor_nonce example_world 1 example_context
              example_nonce 0 eq_refl example_context_initialized eq_refl)
    as (evp & w' & Hevp & Hrun & Hat & _).
  exists w'. split; [exact Hrun|]. rewrite Hat. reflexivity.
Defined.

(** C3 at the freshly allocated world, with the key of test case 0. *)
Lemma context_init_sets_salt_and_key_witness :
  icm_at allocated_world 1 = Some allocated_context /\
  allocated allocated_context /\
  key_size allocated_context + SRTP_SALT_SIZE <= Z.of_nat (length srtp_aes_icm_test_case_0_key) /\
  exists w' s',
    srtp_aes_icm_openssl_context_init (Some 1%nat) srtp_aes_icm_test_case_0_key
      allocated_world = Some (srtp_err_status_ok, w') /\
    icm_at w' 1 = Some s' /\
    offset s' = drop 16 srtp_aes_icm_test_case_0_key ++ [0; 0] /\
    counter s' = drop 16 srtp_aes_icm_test_case_0_key ++ [0; 0] /\
    take 16 (key s') = take 16 srtp_aes_icm_test_case_0_key.
Proof.
  assert (allocated allocated_context) as Ha.
  { split; [by repeat split|]. left. reflexivity. }
  assert (key_size allocated_context + SRTP_SALT_SIZE
          <= Z.of_nat (length srtp_aes_icm_test_case_0_key)) as Hl
    by (by vm_compute).
  split; [reflexivity|]. split; [exact Ha|]. split; [exact Hl|].
  destruct (context_init_sets_salt_and_key allocated_world 1 allocated_context
              srtp_aes_icm_test_case_0_key eq_refl Ha Hl)
    as (w' & s' & Hrun & Hat & _ & Hc & Ho & Hk & _).
  exists w', s'. split; [exact Hrun|]. split; [exact Hat|].
  split; [exact Ho|]. split; [exact Hc|]. exact Hk.
Defined.

(** C5 at the example world: the nonce's last two octets, 14 and 15, come
    out in the counter. *)
Lemma set_iv_counter_trailing_octets_witness :
  icm_at example_world 1 = Some example_context /\
  initialized example_context /\
  length example_nonce = 16%nat /\
  exists st w' s',
    srtp_aes_icm_openssl_set_iv (Some 1%nat) example_nonce 0 example_world =
      Some (st, w') /\
    icm_at w' 1 = Some s' /\
    counter s' !! 14%nat = Some 14 /\
    counter s' !! 15%nat = Some 15.
Proof.
  split; [reflexivity|]. split; [exact example_context_initialized|].
  split; [reflexivity|].
  exact (set_iv_counter_trailing_octets example_world 1 example_context
           example_nonce 0 eq_refl example_context_initialized eq_refl).
Defined.

(** C5 as stated fails: on the initialized example context, set_iv with a
    nonce ending in 14, 15 returns ok and leaves a counter ending in
    14, 15, not in zeros. *)
Lemma set_iv_counter_trailing_octets_not_zero :
  icm_at example_world 1 = Some example_context /\
  initialized example_context /\
  length example_nonce = 16%nat /\
  exists w' s',
    srtp_aes_icm_openssl_set_iv (Some 1%nat) example_nonce 0 example_world =
      Some (srtp_err_status_ok, w') /\
    icm_at w' 1 = Some s' /\
    counter s' !! 14%nat = Some 14 /\
    counter s' !! 15%nat = Some 15 /\
    counter s' !! 14%nat <> Some 0 /\
    counter s' !! 15%nat <> Some 0.
Proof.
  split; [reflexivity|]. split; [exact example_context_initialized|].
  split; [reflexivity|].
  exists example_world_iv, example_context_iv.
  split; [reflexivity|]. split; [reflexivity|].
  split; [reflexivity|]. split; [reflexivity|]. split; discriminate.
Qed.

(** C6 at the empty world, under AES: a three-octet buffer, key and salt
    of test case 0, encrypted and decrypted with opposite directions. *)
Lemma process_twice_recovers_plaintext_witness :
  srtp_aes_icm ∈ cipher_types /\
  30 <= Z.of_nat (length srtp_aes_icm_test_case_0_key) /\
  length example_nonce = 16%nat /\
  memory_available 2 empty_world /\
  exists out w1' w2',
    cipher_run encrypt srtp_aes_icm 30 srtp_aes_icm_test_case_0_key example_nonce 0
      [1; 2; 3] 3 empty_world = Some ((srtp_err_status_ok, out, 3), w1') /\
    cipher_run decrypt srtp_aes_icm 30 srtp_aes_icm_test_case_0_key example_nonce 1
      out 3 empty_world = Some ((srtp_err_status_ok, [1; 2; 3], 3), w2').
Proof.
  assert (srtp_aes_icm ∈ cipher_types) as Hin by apply list_elem_of_here.
  assert (30 <= Z.of_nat (length srtp_aes_icm_test_case_0_key)) as Hk by (by vm_compute).
  split; [exact Hin|]. split; [exact Hk|]. split; [reflexivity|].
  split; [exact empty_world_memory|].
  destruct (process_twice_recovers_plaintext (BC := aes) srtp_aes_icm 30
              srtp_aes_icm_test_case_0_key example_nonce 0 1 [1; 2; 3]
              empty_world empty_world Hin (or_introl eq_refl) Hk eq_refl
              ltac:(by vm_compute) empty_world_memory empty_world_memory)
    as (out & w1' & w2' & H1 & Hlen & H2 & _).
  exists out, w1', w2'. split; [exact H1|].
  rewrite Hlen in H2. exact H2.
Defined.

(** C7 as stated fails: dealloc of a null pointer reports bad_param, not
    ok. *)
Lemma dealloc_null_not_ok :
  srtp_aes_icm_openssl_dealloc NULL example_world =
    Some (srtp_err_status_bad_param, example_world) /\
  srtp_err_status_bad_param <> srtp_err_status_ok.
Proof. split; [reflexivity|discriminate]. Qed.

(** C8 at the example world: the cipher at 0 and its context at 1. *)
Lemma dealloc_zeroizes_context_witness :
  cipher_at example_world 0 = Some example_cipher /\
  state example_cipher = Some 1%nat /\
  icm_at example_world 1 = Some example_context /\
  exists w',
    srtp_aes_icm_openssl_dealloc (Some 0%nat) example_world =
      Some (srtp_err_status_ok, w') /\
    released_at w' 1 = Some (Obj_icm zero_icm).
Proof.
  split; [reflexivity|]. split; [reflexivity|]. split; [reflexivity|].
  destruct (dealloc_zeroizes_context example_world 0 example_cipher 1 example_context
              eq_refl eq_refl eq_refl) as (w' & Hrun & Hzero & _).
  exists w'. split; [exact Hrun|exact Hzero].
Defined.

(** C9 at a context of key size 0: bad_param, and the counter is the
    nonce (the offset being zero). *)
Lemma set_iv_failure_keeps_new_counter_witness :
  icm_at unkeyed_world 0 = Some zero_icm /\
  length example_nonce = 16%nat /\
  exists w' s',
    srtp_aes_icm_openssl_set_iv (Some 0%nat) example_nonce 0 unkeyed_world =
      Some (srtp_err_status_bad_param, w') /\
    icm_at w' 0 = Some s' /\
    counter s' = v128_xor (offset zero_icm) example_nonce.
Proof.
  split; [reflexivity|]. split; [reflexivity|].
  destruct (set_iv_failure_keeps_new_counter unkeyed_world 0 zero_icm example_nonce 0
              eq_refl eq_refl) as (st & w' & s' & Hrun & Hat & Hbad & _ & Hctr).
  assert (st = srtp_err_status_bad_param) as ->.
  { apply Hbad. intros [H | [H | H]]; discriminate H. }
  exists w', s'. split; [exact Hrun|]. split; [exact Hat|].
  apply Hctr. discriminate.
Defined.

(** C10 from the example world, through a set_iv and an encrypt. *)
Lemma offset_and_key_invariant_witness :
  srtp_aes_icm_openssl_context_init (Some 1%nat) srtp_aes_icm_test_case_0_key
    allocated_world = Some (srtp_err_status_ok, example_world) /\
  exists w,
    reachable example_world w /\
    exists s,
      icm_at w 1 = Some s /\
      offset s = offset example_context /\ key s = key example_context /\
      offset s !! 14%nat = Some 0 /\ offset s !! 15%nat = Some 0.
Proof.
  split; [reflexivity|].
  destruct (ctr_encrypt_run (BC := aes) example_world_iv 1 example_context_iv
              EVP_aes_128_ctr [1; 2; 3] eq_refl eq_refl ltac:(by vm_compute))
    as [w2 H2].
  assert (reachable example_world w2) as Hr.
  { eapply reach_process; [|exact H2].
    eapply reach_set_iv; [apply reach_here|exact set_iv_example]. }
  exists w2. split; [exact Hr|].
  destruct (offset_and_key_invariant (Some 1%nat) srtp_aes_icm_test_case_0_key
              allocated_world srtp_err_status_ok example_world w2 eq_refl Hr)
    as (a & s0 & s & Ha & Hs0 & Hs & H14 & H15 & Ho & Hk & _).
  injection Ha as <-. injection Hs0 as <-.
  exists s. split; [exact Hs|]. split; [exact Ho|]. split; [exact Hk|].
  rewrite Ho. split; [exact H14|exact H15].
Defined.

End Concrete.

(** ** Further properties of the engine *)

Section MoreRuns.
Context `{Ext : Externals}.

Lemma cipher_at_put_icm a s0 s evs w (b : nat) :
  icm_at w a = Some s0 ->
  cipher_at (put a (Obj_icm s) evs w) b = cipher_at w b.
Proof.
  intros Hs. pose proof (icm_at_lt _ _ _ Hs) as Hlt.
  unfold cipher_at. destruct (decide (a = b)) as [<-|Hne].
  - rewrite put_live by done. by rewrite (icm_at_live _ _ _ Hs).
  - cbn [heap put]. by rewrite list_lookup_insert_ne.
Qed.

Lemma put_touches_only a s s' evs w :
  icm_at w a = Some s -> key_size s' = key_size s ->
  touches_only (Some a) w (put a (Obj_icm s') evs w).
Proof.
  intros Hs Hk. pose proof (icm_at_lt _ _ _ Hs) as Hlt.
  exists a, s, s'. split; [done|]. split; [done|].
  split; [by apply icm_at_put_eq|]. split; [done|]. split; [done|].
  split; [apply length_insert|].
  intros b Hb. cbn [heap put]. by rewrite list_lookup_insert_ne.
Qed.

(** Whenever context_init returns, it returns ok and has rewritten the
    one context it was given. *)
Lemma context_init_shape p kbuf w st w' :
  srtp_aes_icm_openssl_context_init p kbuf w = Some (st, w') ->
  exists a s s' evs,
    p = Some a /\ icm_at w a = Some s /\ key_size s' = key_size s /\
    w' = put a (Obj_icm s') evs w /\ st = srtp_err_status_ok.
Proof.
  unfold srtp_aes_icm_openssl_context_init.
  intros (s & w1 & (a & -> & -> & Hs)%load_icm_pre & H)%bind_pre.
  pose proof (icm_at_lt _ _ _ Hs) as Hlt.
  apply bind_pre in H as (salt & w2 & [Hsalt ->]%lift_pre & H).
  apply bind_pre in H as (k0 & w3 & [Hk0 ->]%lift_pre & H).
  apply bind_pre in H as (S & w4 & HS & H).
  assert (w4 = w /\ key_size S = key_size s) as [-> HkS].
  { revert HS. cbn [key_size counter offset key ctx set_counter set_offset set_key].
    case_match.
    - intros (k1 & w5 & [_ ->]%lift_pre & HS)%bind_pre.
      unfold ret in HS. by simplify_eq.
    - unfold ret. intros; by simplify_eq. }
  erewrite bind_run in H by (eapply store_run, icm_at_live, Hs).
  erewrite bind_run in H by (apply evp_ctx_cleanup_run, icm_at_put_eq, Hlt).
  unfold ret in H. simplify_eq. rewrite put_put.
  eexists a, s, _, _. split; [done|]. split; [done|].
  split; [|split; [reflexivity|done]]. exact HkS.
Qed.

(** The four ways srtp_aes_icm_openssl_alloc returns. *)
Lemma alloc_inv c key_len tlen w st c' w' :
  srtp_aes_icm_openssl_alloc c key_len tlen w = Some (st, c', w') ->
  (class_of_key_len key_len = None /\ st = srtp_err_status_bad_param /\
   c' = c /\ w' = w) \/
  (is_Some (class_of_key_len key_len) /\ oom w !! 0%nat = Some true /\
   st = srtp_err_status_alloc_fail /\ c' = NULL /\
   w' = {| heap := heap w; oom := tail (oom w);
           trace := trace w ++ [Ev_srtp_crypto_alloc NULL] |}) \/
  (is_Some (class_of_key_len key_len) /\ oom w !! 0%nat <> Some true /\
   oom w !! 1%nat = Some true /\
   st = srtp_err_status_alloc_fail /\ c' = NULL /\
   w' = {| heap := heap w ++ [{| live := false; obj := Obj_cipher zero_cipher |}];
           oom := tail (tail (oom w));
           trace := trace w ++ [Ev_srtp_crypto_alloc (Some (length (heap w)));
                                Ev_srtp_crypto_alloc NULL;
                                Ev_srtp_crypto_free (length (heap w))] |}) \/
  (exists alg ty ks,
     class_of_key_len key_len = Some (alg, ty, ks) /\ memory_available 2 w /\
     st = srtp_err_status_ok /\ c' = Some (length (heap w)) /\
     w' = alloc_ok_world w key_len alg ty ks).
Proof.
  intros H.
  destruct (class_of_key_len key_len) as [[[alg ty] ks]|] eqn:Hclass.
  - destruct (decide (oom w !! 0%nat = Some true)) as [H0|H0];
      [|destruct (decide (oom w !! 1%nat = Some true)) as [H1|H1]].
    + rewrite alloc_run_oom_first in H by (rewrite ?Hclass; eauto).
      simplify_eq. right; left. eauto 10.
    + rewrite alloc_run_oom_second in H by (rewrite ?Hclass; eauto).
      simplify_eq. right; right; left. eauto 10.
    + assert (memory_available 2 w) as Hmem.
      { intros [|[|i]] Hi; [done..|lia]. }
      rewrite (alloc_run_ok _ _ _ _ _ _ _ Hclass Hmem) in H.
      simplify_eq. right; right; right. eauto 10.
  - rewrite alloc_run_bad_param in H by done. simplify_eq. left. eauto.
Qed.

(** A null state pointer: only the cipher is released. *)
Lemma dealloc_run_stateless w a ci :
  cipher_at w a = Some ci -> state ci = NULL ->
  srtp_aes_icm_openssl_dealloc (Some a) w =
    Some (srtp_err_status_ok,
          {| heap := <[a := {| live := false; obj := Obj_cipher ci |}]> (heap w);
             oom := oom w;
             trace := trace w ++ [Ev_srtp_crypto_free a] |}).
Proof.
  intros Hc Hst. unfold srtp_aes_icm_openssl_dealloc.
  erewrite bind_run by (apply load_cipher_run, Hc).
  rewrite Hst. unfold bind at 1, ret at 1.
  erewrite bind_run by (eapply srtp_crypto_free_run, cipher_at_live, Hc).
  done.
Qed.

(** A cipher with a live context: cleanup, zeroing and both releases. *)
Lemma dealloc_run w a ci q s :
  cipher_at w a = Some ci -> state ci = Some q -> icm_at w q = Some s ->
  srtp_aes_icm_openssl_dealloc (Some a) w =
    Some (srtp_err_status_ok,
          {| heap := <[a := {| live := false; obj := Obj_cipher ci |}]>
                       (<[q := {| live := false; obj := Obj_icm zero_icm |}]> (heap w));
             oom := oom w;
             trace := trace w ++ [Ev_EVP_CIPHER_CTX_cleanup q (ctx s);
                                  Ev_octet_string_set_to_zero q;
                                  Ev_srtp_crypto_free q;
                                  Ev_srtp_crypto_free a] |}).
Proof.
  intros Hc Hst Hs.
  pose proof (icm_at_lt _ _ _ Hs) as Hq.
  pose proof (cipher_at_live _ _ _ Hc) as Hlc.
  assert (a <> q) as Hne.
  { intros ->. apply icm_at_live in Hs. congruence. }
  unfold srtp_aes_icm_openssl_dealloc.
  erewrite bind_run by (apply load_cipher_run, Hc).
  rewrite Hst.
  erewrite bind_run.
  2:{ erewrite bind_run by (apply evp_ctx_cleanup_run, Hs).
      erewrite bind_run
        by (eapply octet_string_set_to_zero_run, icm_at_put_eq, Hq).
      rewrite put_put.
      eapply srtp_crypto_free_run. by apply put_live. }
  cbn [heap oom trace put].
  erewrite bind_run.
  2:{ eapply srtp_crypto_free_run. cbn [heap].
      rewrite list_insert_insert_eq, list_lookup_insert_ne by done. exact Hlc. }
  cbn [heap oom trace]. unfold ret.
  by rewrite list_insert_insert_eq, <- !app_assoc.
Qed.

(** Calls of set_iv and encrypt never touch a cipher structure. *)
Lemma reachable_keeps_cipher w0 w a ci :
  cipher_at w0 a = Some ci -> reachable w0 w -> cipher_at w a = Some ci.
Proof.
  intros H0 Hr. induction Hr as [|w p iv dir st w' _ IH Hstep|w p buf len r w' _ IH Hstep].
  - done.
  - apply set_iv_post in Hstep as (b & sb & h & evs & -> & Hb & _ & ->).
    by rewrite (cipher_at_put_icm _ _ _ _ _ _ Hb).
  - apply encrypt_post in Hstep as (b & sb & h & evs & -> & Hb & ->).
    by rewrite (cipher_at_put_icm _ _ _ _ _ _ Hb).
Qed.

End MoreRuns.

Section MoreProperties.
Context `{Ext : Externals}.

Lemma reachable_keeps_length w0 w :
  reachable w0 w -> length (heap w) = length (heap w0).
Proof.
  intros Hr. induction Hr as [|w p iv dir st w' _ IH Hstep|w p buf len r w' _ IH Hstep].
  - done.
  - apply set_iv_post in Hstep as (b & sb & h & evs & -> & Hb & _ & ->).
    cbn [heap put]. by rewrite length_insert.
  - apply encrypt_post in Hstep as (b & sb & h & evs & -> & Hb & ->).
    cbn [heap put]. by rewrite length_insert.
Qed.

(** X1: when alloc reports alloc_fail, the key length was a valid one
    and memory ran out at one of the two allocations; [*c] is NULL, every
    cell that existed is as it was, and no live cell has been added: a
    cipher structure allocated before the failure has been released. *)
Theorem alloc_failure_leaves_nothing c klen tlen w c' w' :
  srtp_aes_icm_openssl_alloc c klen tlen w =
    Some (srtp_err_status_alloc_fail, c', w') ->
  c' = NULL /\
  (klen = 30 \/ klen = 38 \/ klen = 46) /\
  ~ memory_available 2 w /\
  (forall b : nat, (b < length (heap w))%nat -> heap w' !! b = heap w !! b) /\
  (forall (b : nat) x,
      heap w' !! b = Some x -> live x = true -> (b < length (heap w))%nat).
Proof.
  intros H. apply alloc_inv in H
    as [(_ & [=] & _) | [(Hc & H0 & _ & -> & ->) | [(Hc & H0 & H1 & _ & -> & ->) |
        (alg & ty & ks & _ & _ & [=] & _)]]].
  - split; [done|]. split; [by apply class_of_key_len_Some|].
    split; [intros Hm; by destruct (Hm 0%nat ltac:(lia))|].
    split; [done|]. cbn [heap]. intros b x Hb _. by eapply lookup_lt_Some.
  - split; [done|]. split; [by apply class_of_key_len_Some|].
    split; [intros Hm; by destruct (Hm 1%nat ltac:(lia))|].
    cbn [heap]. split.
    + intros b Hb. by rewrite lookup_app_l.
    + intros b x Hb Hlive.
      destruct (decide (b < length (heap w))%nat) as [|Hge]; [done|].
      rewrite lookup_app_r in Hb by lia.
      destruct (b - length (heap w))%nat as [|k]; cbn in Hb; [|done].
      by simplify_eq.
Qed.

(** X2: through whichever table alloc is called, a successful call binds
    the cipher to the table of the key length: the table its [type] field
    points to has a known-answer fixture whose key and salt are exactly
    that long, and the context it points to has the key size that, with
    the salt, makes up the key length. *)
Theorem alloc_binds_table_of_key_len ct c klen tlen w c' w' :
  ct ∈ cipher_types ->
  alloc ct c klen tlen w = Some (srtp_err_status_ok, c', w') ->
  exists (a i : nat) ci t tc s,
    c' = Some a /\ cipher_at w' a = Some ci /\ key_len ci = klen /\
    deref_type (type ci) = Some t /\ t ∈ cipher_types /\
    test_data t = Some tc /\ key_length_octets tc = klen /\
    Z.of_nat (length (tc_key tc)) = klen /\
    state ci = Some i /\ icm_at w' i = Some s /\
    key_size s + SRTP_SALT_SIZE = klen.
Proof.
  intros Hct H. rewrite (cipher_types_alloc ct Hct) in H.
  apply alloc_inv in H
    as [(_ & [=] & _) | [(_ & _ & [=] & _) | [(_ & _ & _ & [=] & _) |
        (alg & ty & ks & Hclass & _ & _ & -> & ->)]]].
  apply class_of_key_len_cases in Hclass
    as [[-> [= -> -> ->]] | [[-> [= -> -> ->]] | [-> [= -> -> ->]]]].
  - eexists _, _, _, srtp_aes_icm, srtp_aes_icm_test_case_0, _.
    split; [done|]. unfold alloc_ok_world.
    split; [by heap_end|]. split; [done|]. split; [done|].
    split; [unfold cipher_types; rewrite !elem_of_cons; auto|].
    split; [done|]. split; [done|]. split; [done|]. split; [done|].
    split; [by heap_end|]. done.
  - eexists _, _, _, srtp_aes_icm_192, srtp_aes_icm_192_test_case_1, _.
    split; [done|]. unfold alloc_ok_world.
    split; [by heap_end|]. split; [done|]. split; [done|].
    split; [unfold cipher_types; rewrite !elem_of_cons; auto|].
    split; [done|]. split; [done|]. split; [done|]. split; [done|].
    split; [by heap_end|]. done.
  - eexists _, _, _, srtp_aes_icm_256, srtp_aes_icm_256_test_case_2, _.
    split; [done|]. unfold alloc_ok_world.
    split; [by heap_end|]. split; [done|]. split; [done|].
    split; [unfold cipher_types; rewrite !elem_of_cons; auto|].
    split; [done|]. split; [done|]. split; [done|]. split; [done|].
    split; [by heap_end|]. done.
Qed.

(** X3: dealloc of a live cipher whose state pointer is null returns ok
    and only releases the cipher structure: no EVP cleanup, no zeroing
    and no other release is logged, and no other cell changes. *)
Theorem dealloc_without_context w a ci :
  cipher_at w a = Some ci -> state ci = NULL ->
  exists w',
    srtp_aes_icm_openssl_dealloc (Some a) w = Some (srtp_err_status_ok, w') /\
    released_at w' a = Some (Obj_cipher ci) /\
    trace w' = trace w ++ [Ev_srtp_crypto_free a] /\
    (forall b : nat, b <> a -> heap w' !! b = heap w !! b).
Proof.
  intros Hc Hst. eexists. split; [by apply dealloc_run_stateless|].
  pose proof (lookup_lt_Some _ _ _ (cipher_at_live _ _ _ Hc)) as Hlt.
  unfold released_at. cbn [heap trace].
  split; [by rewrite list_lookup_insert_eq|]. split; [done|].
  intros b Hb. by rewrite list_lookup_insert_ne.
Qed.

(** X4: a cipher that alloc has created and context_init has keyed can
    be torn down after any sequence of set_iv and encrypt/decrypt calls:
    dealloc returns ok, the released context holds zero octets only, and
    every cell added since before the alloc is released. *)
Theorem teardown_after_use c klen tlen w a w1 i kbuf st w2 w3 :
  srtp_aes_icm_openssl_alloc c klen tlen w = Some (srtp_err_status_ok, Some a, w1) ->
  state <$> cipher_at w1 a = Some (Some i) ->
  srtp_aes_icm_openssl_context_init (Some i) kbuf w1 = Some (st, w2) ->
  reachable w2 w3 ->
  exists w4 ci,
    srtp_aes_icm_openssl_dealloc (Some a) w3 = Some (srtp_err_status_ok, w4) /\
    released_at w4 i =
      Some (Obj_icm {| counter := replicate 16 0; offset := replicate 16 0;
                       key := replicate 32 0; key_size := 0;
                       ctx := EVP_CIPHER_CTX_zero |}) /\
    released_at w4 a = Some (Obj_cipher ci) /\
    (forall (b : nat) x,
        heap w4 !! b = Some x -> (length (heap w) <= b)%nat -> live x = false).
Proof.
  intros Halloc Hst Hinit Hr.
  apply alloc_inv in Halloc
    as [(_ & [=] & _) | [(_ & _ & [=] & _) | [(_ & _ & _ & [=] & _) |
        (alg & ty & ks & Hclass & _ & _ & [= ->] & ->)]]].
  set (n := length (heap w)) in *.
  set (ci := {| type := ty; state := Some (S n); key_len := klen; algorithm := alg |}).
  assert (cipher_at (alloc_ok_world w klen alg ty ks) n = Some ci) as Hc1
    by (unfold alloc_ok_world, n; by heap_end).
  rewrite Hc1 in Hst. cbn in Hst. injection Hst as <-.
  apply context_init_shape in Hinit
    as (i' & s & s' & evs & [= <-] & Hs & _ & -> & _).
  pose proof (icm_at_lt _ _ _ Hs) as Hlt.
  assert (cipher_at w3 n = Some ci) as Hc3.
  { eapply reachable_keeps_cipher; [|exact Hr].
    by rewrite (cipher_at_put_icm _ _ _ _ _ _ Hs). }
  destruct (reachable_keeps_offset_and_key _ _ (S n) s'
              (icm_at_put_eq _ _ _ _ Hlt) Hr) as (s3 & Hs3 & _).
  pose proof (reachable_keeps_length _ _ Hr) as Hlen.
  cbn [heap put] in Hlen. rewrite length_insert in Hlen.
  unfold alloc_ok_world in Hlen. cbn [heap] in Hlen.
  rewrite length_app in Hlen. cbn [length] in Hlen. fold n in Hlen.
  eexists _, ci. split; [by eapply dealloc_run|].
  unfold released_at. cbn [heap].
  split; [|split].
  - rewrite list_lookup_insert_ne, list_lookup_insert_eq by lia. done.
  - rewrite list_lookup_insert_eq by (rewrite length_insert; lia). done.
  - intros b x Hb Hge.
    pose proof (lookup_lt_Some _ _ _ Hb) as Hb'.
    rewrite !length_insert in Hb'.
    destruct (decide (b = n)) as [->|Hbn].
    + rewrite list_lookup_insert_eq in Hb by (rewrite length_insert; lia).
      by simplify_eq.
    + assert (b = S n) as -> by lia.
      rewrite list_lookup_insert_ne, list_lookup_insert_eq in Hb by lia.
      by simplify_eq.
Qed.

(** X5: context_init, set_iv and the encrypt/decrypt entry point change
    nothing but the one context they are given: whenever they return,
    their pointer holds a live context before and after, of unchanged key
    size, and every other cell, the size of the heap and the allocator
    are untouched. *)
Theorem context_operations_touch_one_cell :
  (forall p kbuf w st w',
      srtp_aes_icm_openssl_context_init p kbuf w = Some (st, w') ->
      touches_only p w w') /\
  (forall p iv dir w st w',
      srtp_aes_icm_openssl_set_iv p iv dir w = Some (st, w') ->
      touches_only p w w') /\
  (forall p buf len w r w',
      srtp_aes_icm_openssl_encrypt p buf len w = Some (r, w') ->
      touches_only p w w').
Proof.
  split; [|split].
  - intros p kbuf w st w' H.
    apply context_init_shape in H as (a & s & s' & evs & -> & Hs & Hk & -> & _).
    by apply (put_touches_only a s).
  - intros p iv dir w st w' H.
    apply set_iv_post in H as (a & s & h & evs & -> & Hs & _ & ->).
    by apply (put_touches_only a s).
  - intros p buf len w r w' H.
    apply encrypt_post in H as (a & s & h & evs & -> & Hs & ->).
    by apply (put_touches_only a s).
Qed.

End MoreProperties.

(** ** Further properties under the counter-mode primitive *)

Section MoreCtr.
Context `{BC : BlockCipher}.

Lemma ctr128_encrypt_cipher evp s data :
  CTR.cipher (fst (CTR.ctr128_encrypt evp s data)) = CTR.cipher s.
Proof.
  revert s. induction data as [|b data IH]; intros s; [done|].
  cbn [CTR.ctr128_encrypt].
  destruct (CTR.ctr_octet evp s b) as [s1 o] eqn:E1.
  specialize (IH s1).
  destruct (CTR.ctr128_encrypt evp s1 data) as [s2 out].
  cbn [fst] in *. rewrite IH.
  unfold CTR.ctr_octet in E1. injection E1 as <- _. cbn. by destruct (CTR.num s =? 0).
Qed.

(** The keystream runs on from one piece of data to the next. *)
Lemma ctr128_encrypt_app evp s d1 d2 :
  CTR.ctr128_encrypt evp s (d1 ++ d2) =
    let r1 := CTR.ctr128_encrypt evp s d1 in
    let r2 := CTR.ctr128_encrypt evp (fst r1) d2 in
    (fst r2, snd r1 ++ snd r2).
Proof.
  revert s. induction d1 as [|b d1 IH]; intros s.
  - cbn. by destruct (CTR.ctr128_encrypt evp s d2).
  - cbn [app CTR.ctr128_encrypt].
    destruct (CTR.ctr_octet evp s b) as [s1 o].
    rewrite IH. cbn zeta.
    destruct (CTR.ctr128_encrypt evp s1 d1) as [s2 o1]. cbn [fst snd].
    by destruct (CTR.ctr128_encrypt evp s2 d2).
Qed.

(** The output is the input XORed with what zeros are turned into. *)
Lemma ctr128_encrypt_xor evp s data :
  snd (CTR.ctr128_encrypt evp s data) =
    zip_with Z.lxor data
      (snd (CTR.ctr128_encrypt evp s (replicate (length data) 0))) /\
  fst (CTR.ctr128_encrypt evp s data) =
    fst (CTR.ctr128_encrypt evp s (replicate (length data) 0)).
Proof.
  revert s. induction data as [|b data IH]; intros s; [done|].
  cbn [length replicate CTR.ctr128_encrypt].
  pose proof (ctr_octet_state evp s b 0) as Hst.
  destruct (CTR.ctr_octet evp s b) as [s1 o] eqn:E1.
  destruct (CTR.ctr_octet evp s 0) as [s1' k] eqn:E2.
  cbn [fst] in Hst. subst s1'.
  destruct (IH s1) as [IH1 IH2].
  destruct (CTR.ctr128_encrypt evp s1 data) as [s2 out].
  destruct (CTR.ctr128_encrypt evp s1 (replicate (length data) 0)) as [s2' ks].
  cbn [fst snd zip_with] in *. subst. split; [|done]. f_equal.
  unfold CTR.ctr_octet in E1, E2. injection E1 as _ <-. injection E2 as _ <-.
  by rewrite Z.lxor_0_l.
Qed.

(** The processing entry point on a seeded context, for any length
    within the buffer. *)
Lemma ctr_encrypt_run_prefix w a s evp buf enc_len :
  icm_at w a = Some s ->
  CTR.cipher (ctx s) = Some evp ->
  0 <= enc_len <= Z.of_nat (length buf) ->
  enc_len < 2 ^ 31 ->
  srtp_aes_icm_openssl_encrypt (Some a) buf enc_len w =
    let n := Z.to_nat enc_len in
    let r := CTR.ctr128_encrypt evp (ctx s) (take n buf) in
    Some ((srtp_err_status_ok, snd r ++ drop n buf, enc_len),
          put a (Obj_icm (set_ctx (fst r) s))
              [Ev_EVP_EncryptUpdate a enc_len; Ev_EVP_EncryptFinal_ex a] w).
Proof.
  intros Hs Hc Hlen Hlt.
  rewrite (encrypt_run w a s buf _ Hs) by lia.
  rewrite int_of_uint_small by lia.
  change (EVP_EncryptUpdate (ctx s) buf enc_len)
    with (CTR.EncryptUpdate (ctx s) buf enc_len).
  unfold CTR.EncryptUpdate. rewrite Hc.
  destruct (Z.leb_spec enc_len 0) as [H0|H0].
  - assert (enc_len = 0) as -> by lia. cbn.
    rewrite drop_0. by destruct s.
  - cbn zeta.
    destruct (CTR.ctr128_encrypt evp (ctx s) (take (Z.to_nat enc_len) buf))
      as [s' out].
    change (@EVP_EncryptFinal_ex CTR.externals s' (out ++ drop (Z.to_nat enc_len) buf))
      with (CTR.EncryptFinal_ex s' (out ++ drop (Z.to_nat enc_len) buf)).
    unfold CTR.EncryptFinal_ex, uint_of_int. cbn [fst snd].
    by rewrite Z.add_0_r, Z.mod_mod, Z.mod_small by lia.
Qed.

(** X6: on a seeded context the processing entry point returns ok for
    any length from 0 up to the buffer's (and below 2^31): it transforms
    the first [enc_len] octets, leaves the octets behind them as they
    were, keeps the buffer's size and reports [enc_len] again; with a
    length of 0 buffer and context are unchanged. *)
Theorem encrypt_transforms_first_octets_only w a s evp buf enc_len :
  icm_at w a = Some s ->
  CTR.cipher (ctx s) = Some evp ->
  0 <= enc_len <= Z.of_nat (length buf) ->
  enc_len < 2 ^ 31 ->
  exists out w',
    srtp_aes_icm_openssl_encrypt (Some a) buf enc_len w =
      Some ((srtp_err_status_ok, out, enc_len), w') /\
    length out = length buf /\
    take (Z.to_nat enc_len) out =
      snd (CTR.ctr128_encrypt evp (ctx s) (take (Z.to_nat enc_len) buf)) /\
    drop (Z.to_nat enc_len) out = drop (Z.to_nat enc_len) buf /\
    (enc_len = 0 -> out = buf /\ icm_at w' a = Some s).
Proof.
  intros Hs Hc Hlen Hlt. pose proof (icm_at_lt _ _ _ Hs) as Ha.
  eexists _, _. split; [by apply ctr_encrypt_run_prefix|]. cbn zeta.
  pose proof (ctr128_encrypt_length evp (ctx s) (take (Z.to_nat enc_len) buf)) as Hl.
  rewrite length_take_le in Hl by lia.
  split; [rewrite length_app, Hl, length_drop; lia|].
  split; [by rewrite take_app_length'|].
  split; [by rewrite drop_app_length'|].
  intros ->. cbn. rewrite drop_0. split; [done|].
  rewrite icm_at_put_eq by done. by destruct s.
Qed.

(** X7: processing is a stream.  On a seeded context, processing a first
    buffer and then a second gives the octets that processing the two as
    one buffer gives, and leaves the context in the same state. *)
Theorem encrypt_in_two_pieces w a s evp d1 d2 :
  icm_at w a = Some s ->
  CTR.cipher (ctx s) = Some evp ->
  Z.of_nat (length (d1 ++ d2)) < 2 ^ 31 ->
  exists o1 o2 w1 w2 w12,
    srtp_aes_icm_openssl_encrypt (Some a) d1 (Z.of_nat (length d1)) w =
      Some ((srtp_err_status_ok, o1, Z.of_nat (length d1)), w1) /\
    srtp_aes_icm_openssl_encrypt (Some a) d2 (Z.of_nat (length d2)) w1 =
      Some ((srtp_err_status_ok, o2, Z.of_nat (length d2)), w2) /\
    srtp_aes_icm_openssl_encrypt (Some a) (d1 ++ d2) (Z.of_nat (length (d1 ++ d2))) w =
      Some ((srtp_err_status_ok, o1 ++ o2, Z.of_nat (length (d1 ++ d2))), w12) /\
    icm_at w2 a = icm_at w12 a.
Proof.
  intros Hs Hc Hlen. pose proof (icm_at_lt _ _ _ Hs) as Ha.
  rewrite length_app in Hlen.
  pose proof (ctr_encrypt_run_prefix w a s evp d1 (Z.of_nat (length d1)) Hs Hc
                ltac:(lia) ltac:(lia)) as H1.
  cbn zeta in H1. rewrite Nat2Z.id, firstn_all, drop_all, app_nil_r in H1.
  set (r1 := CTR.ctr128_encrypt evp (ctx s) d1) in *.
  match type of H1 with _ = Some (_, ?w0) => set (w1 := w0) in * end.
  pose proof (icm_at_put_eq a _ _ _ Ha : icm_at w1 a = Some _) as Hs1.
  assert (CTR.cipher (fst r1) = Some evp) as Hc1
    by (unfold r1; by rewrite ctr128_encrypt_cipher).
  pose proof (ctr_encrypt_run_prefix w1 a _ evp d2 (Z.of_nat (length d2)) Hs1 Hc1
                ltac:(lia) ltac:(lia)) as H2.
  cbn zeta in H2. rewrite Nat2Z.id, firstn_all, drop_all, app_nil_r in H2.
  cbn [ctx set_ctx] in H2.
  pose proof (ctr_encrypt_run_prefix w a s evp (d1 ++ d2)
                (Z.of_nat (length (d1 ++ d2))) Hs Hc
                ltac:(lia) ltac:(rewrite length_app; lia)) as H12.
  cbn zeta in H12. rewrite Nat2Z.id, firstn_all, drop_all, app_nil_r in H12.
  rewrite ctr128_encrypt_app in H12. cbn zeta in H12. fold r1 in H12.
  cbn [fst snd] in H12.
  eexists _, _, _, _, _. split; [exact H1|]. split; [exact H2|].
  split; [exact H12|].
  rewrite !icm_at_put_eq by (done || (unfold w1; cbn [heap put]; by rewrite length_insert)).
  done.
Qed.

(** X8: set_iv starts the keystream afresh.  Two live contexts with the
    same key, key size and offset, whatever their counters and whatever
    state earlier runs have left in their EVP contexts, give the same
    output for the same nonce and data, for any direction arguments. *)
Theorem set_iv_reseeds_keystream w1 a1 s1 w2 a2 s2 nonce dir1 dir2 data :
  icm_at w1 a1 = Some s1 ->
  icm_at w2 a2 = Some s2 ->
  key s1 = key s2 ->
  offset s1 = offset s2 ->
  key_size s1 = key_size s2 ->
  supported_key_size (key_size s1) ->
  length nonce = 16%nat ->
  Z.of_nat (length data) < 2 ^ 31 ->
  exists out w1' w1'' w2' w2'',
    srtp_aes_icm_openssl_set_iv (Some a1) nonce dir1 w1 =
      Some (srtp_err_status_ok, w1') /\
    srtp_aes_icm_openssl_encrypt (Some a1) data (Z.of_nat (length data)) w1' =
      Some ((srtp_err_status_ok, out, Z.of_nat (length data)), w1'') /\
    srtp_aes_icm_openssl_set_iv (Some a2) nonce dir2 w2 =
      Some (srtp_err_status_ok, w2') /\
    srtp_aes_icm_openssl_encrypt (Some a2) data (Z.of_nat (length data)) w2' =
      Some ((srtp_err_status_ok, out, Z.of_nat (length data)), w2'').
Proof.
  intros Hs1 Hs2 Hk Ho Hz [evp Hevp]%evp_for_supported Hn Hlen.
  pose proof (icm_at_lt _ _ _ Hs1) as Ha1.
  pose proof (icm_at_lt _ _ _ Hs2) as Ha2.
  pose proof (set_iv_run w1 a1 s1 nonce dir1 Hs1 ltac:(lia)) as R1.
  pose proof (set_iv_run w2 a2 s2 nonce dir2 Hs2 ltac:(lia)) as R2.
  rewrite <- Hz, <- Hk, <- Ho in R2. rewrite Hevp in R1, R2.
  cbn zeta in R1, R2. cbn [counter set_counter fst snd] in R1, R2.
  change (EVP_EncryptInit_ex (ctx s1) evp (key s1)
            (v128_xor (offset s1) (take 16 nonce)))
    with (CTR.EncryptInit_ex (ctx s1) evp (key s1)
            (v128_xor (offset s1) (take 16 nonce))) in R1.
  change (EVP_EncryptInit_ex (ctx s2) evp (key s1)
            (v128_xor (offset s1) (take 16 nonce)))
    with (CTR.EncryptInit_ex (ctx s2) evp (key s1)
            (v128_xor (offset s1) (take 16 nonce))) in R2.
  unfold CTR.EncryptInit_ex in R1, R2. cbn [fst snd] in R1, R2.
  match type of R1 with _ = Some (_, ?w) => set (w1' := w) in * end.
  match type of R2 with _ = Some (_, ?w) => set (w2' := w) in * end.
  destruct (ctr_encrypt_run w1' a1 _ evp data
              (icm_at_put_eq _ _ _ _ Ha1) eq_refl Hlen) as [w1'' E1].
  destruct (ctr_encrypt_run w2' a2 _ evp data
              (icm_at_put_eq _ _ _ _ Ha2) eq_refl Hlen) as [w2'' E2].
  cbn [ctx set_ctx] in E1, E2.
  eexists _, w1', w1'', w2', w2''.
  split; [exact R1|]. split; [exact E1|]. split; [exact R2|]. exact E2.
Qed.

(** X9: the output is the data XORed with a keystream that does not
    depend on the data: processing a buffer on a seeded context gives,
    octet by octet, the buffer XORed with what processing as many zero
    octets on the same context gives. *)
Theorem encrypt_is_xor_with_keystream w a s evp data :
  icm_at w a = Some s ->
  CTR.cipher (ctx s) = Some evp ->
  Z.of_nat (length data) < 2 ^ 31 ->
  exists out ks w' w'',
    srtp_aes_icm_openssl_encrypt (Some a) data (Z.of_nat (length data)) w =
      Some ((srtp_err_status_ok, out, Z.of_nat (length data)), w') /\
    srtp_aes_icm_openssl_encrypt (Some a) (replicate (length data) 0)
      (Z.of_nat (length data)) w =
      Some ((srtp_err_status_ok, ks, Z.of_nat (length data)), w'') /\
    out = zip_with Z.lxor data ks /\
    icm_at w' a = icm_at w'' a.
Proof.
  intros Hs Hc Hlen. pose proof (icm_at_lt _ _ _ Hs) as Ha.
  pose proof (ctr_encrypt_run_prefix w a s evp data (Z.of_nat (length data)) Hs Hc
                ltac:(lia) Hlen) as H1.
  cbn zeta in H1. rewrite Nat2Z.id, firstn_all, drop_all, app_nil_r in H1.
  pose proof (ctr_encrypt_run_prefix w a s evp (replicate (length data) 0)
                (Z.of_nat (length data)) Hs Hc
                ltac:(rewrite length_replicate; lia) Hlen) as H2.
  cbn zeta in H2. rewrite Nat2Z.id in H2.
  rewrite (take_ge (replicate (length data) 0)), (drop_ge (replicate (length data) 0)),
    app_nil_r in H2 by (rewrite length_replicate; lia).
  destruct (ctr128_encrypt_xor evp (ctx s) data) as [Hx Hst].
  eexists _, _, _, _. split; [exact H1|]. split; [exact H2|].
  split; [exact Hx|].
  rewrite !icm_at_put_eq by done. by rewrite Hst.
Qed.

End MoreCtr.

Section MoreSetIv.
Context `{Ext : Externals}.

Lemma v128_xor_cancel (o n : list Z) :
  (length n <= length o)%nat -> v128_xor o (v128_xor o n) = n.
Proof.
  unfold v128_xor. revert n. induction o as [|x o IH]; intros [|y n] Hl;
    cbn in *; try done; [lia|].
  rewrite IH by lia.
  by rewrite <- Z.lxor_assoc, Z.lxor_nilpotent, Z.lxor_0_l.
Qed.

(** X10: the nonce can be read back from the counter: after set_iv on a
    context with a 16-octet offset, offset XOR counter is the nonce.  So
    two different 16-octet nonces never give the same counter on the same
    context. *)
Theorem set_iv_distinct_nonces_distinct_counters w a s n1 n2 dir1 dir2 :
  icm_at w a = Some s ->
  length (offset s) = 16%nat ->
  length n1 = 16%nat ->
  length n2 = 16%nat ->
  exists st1 w1 s1 st2 w2 s2,
    srtp_aes_icm_openssl_set_iv (Some a) n1 dir1 w = Some (st1, w1) /\
    icm_at w1 a = Some s1 /\
    srtp_aes_icm_openssl_set_iv (Some a) n2 dir2 w = Some (st2, w2) /\
    icm_at w2 a = Some s2 /\
    v128_xor (offset s1) (counter s1) = n1 /\
    v128_xor (offset s2) (counter s2) = n2 /\
    (counter s1 = counter s2 -> n1 = n2).
Proof.
  intros Hs Ho H1 H2. pose proof (icm_at_lt _ _ _ Hs) as Ha.
  pose proof (set_iv_run w a s n1 dir1 Hs ltac:(lia)) as R1.
  pose proof (set_iv_run w a s n2 dir2 Hs ltac:(lia)) as R2.
  rewrite firstn_all2 in R1, R2 by lia. cbn zeta in R1, R2.
  assert (forall n : list Z, length n = 16%nat ->
            v128_xor (offset s) (v128_xor (offset s) n) = n) as Hc
    by (intros n Hn; apply v128_xor_cancel; lia).
  destruct (evp_for (key_size s)) as [evp|];
    eexists _, _, _, _, _, _;
    (split; [exact R1|]); (split; [by apply icm_at_put_eq|]);
    (split; [exact R2|]); (split; [by apply icm_at_put_eq|]);
    cbn [offset counter set_ctx set_counter];
    (split; [by apply Hc|]); (split; [by apply Hc|]);
    intros E; rewrite <- (Hc n1 H1), <- (Hc n2 H2); by rewrite E.
Qed.

(** X11: the bad_param branch of set_iv is never taken on a context that
    alloc has created: after alloc, context_init and any sequence of
    set_iv and encrypt/decrypt calls, set_iv on that context with a
    16-octet nonce returns ok or fail, as EVP_EncryptInit_ex decides. *)
Theorem set_iv_never_bad_param_after_alloc c klen tlen w a w1 i kbuf st w2 w3 iv dir :
  srtp_aes_icm_openssl_alloc c klen tlen w = Some (srtp_err_status_ok, Some a, w1) ->
  state <$> cipher_at w1 a = Some (Some i) ->
  srtp_aes_icm_openssl_context_init (Some i) kbuf w1 = Some (st, w2) ->
  reachable w2 w3 ->
  length iv = 16%nat ->
  exists st' w4,
    srtp_aes_icm_openssl_set_iv (Some i) iv dir w3 = Some (st', w4) /\
    st' <> srtp_err_status_bad_param /\
    (st' = srtp_err_status_ok \/ st' = srtp_err_status_fail).
Proof.
  intros Halloc Hst Hinit Hr Hiv.
  apply alloc_inv in Halloc
    as [(_ & [=] & _) | [(_ & _ & [=] & _) | [(_ & _ & _ & [=] & _) |
        (alg & ty & ks & Hclass & _ & _ & [= ->] & ->)]]].
  destruct (class_of_key_len_table _ _ _ _ Hclass) as (Hks & _ & _).
  assert (cipher_at (alloc_ok_world w klen alg ty ks) (length (heap w)) =
            Some {| type := ty; state := Some (S (length (heap w)));
                    key_len := klen; algorithm := alg |}) as Hc1
    by (unfold alloc_ok_world; by heap_end).
  rewrite Hc1 in Hst. cbn in Hst. injection Hst as <-.
  apply context_init_shape in Hinit
    as (i' & s & s' & evs & [= <-] & Hs & Hk & -> & _).
  assert (key_size s = ks) as Hks0.
  { revert Hs. unfold alloc_ok_world. heap_end. by intros [= <-]. }
  pose proof (icm_at_lt _ _ _ Hs) as Hlt.
  destruct (reachable_keeps_offset_and_key _ _ (S (length (heap w))) s'
              (icm_at_put_eq _ _ _ _ Hlt) Hr) as (s3 & Hs3 & _ & _ & Hk3).
  pose proof (set_iv_run w3 _ s3 iv dir Hs3 ltac:(lia)) as R. cbn zeta in R.
  assert (supported_key_size (key_size s3)) as [evp Hevp]%evp_for_supported
    by (by rewrite Hk3, Hk, Hks0).
  rewrite Hevp in R.
  eexists _, _. split; [exact R|].
  by destruct (fst (EVP_EncryptInit_ex _ _ _ _)); split; auto.
Qed.

End MoreSetIv.

(** ** The further properties at concrete inputs *)

Section MoreConcrete.

#[local] Existing Instance openssl.

(** X1 where memory suffices for the cipher structure only. *)
Lemma alloc_failure_leaves_nothing_witness :
  exists w',
    srtp_aes_icm_openssl_alloc NULL 30 0 starved_world =
      Some (srtp_err_status_alloc_fail, NULL, w') /\
    ~ memory_available 2 starved_world /\
    forall (b : nat) x,
      heap w' !! b = Some x -> live x = true -> (b < length (heap starved_world))%nat.
Proof.
  pose proof (alloc_run_oom_second NULL 30 0 starved_world
                (ex_intro _ _ eq_refl) ltac:(discriminate) eq_refl) as H.
  eexists. split; [exact H|].
  destruct (alloc_failure_leaves_nothing _ _ _ _ _ _ H) as (_ & _ & Hm & _ & Hl).
  split; [exact Hm|exact Hl].
Defined.

(** X2 with a key length of 30 through the AES-256 table. *)
Lemma alloc_binds_table_of_key_len_witness :
  srtp_aes_icm_256 ∈ cipher_types /\
  alloc srtp_aes_icm_256 NULL 30 0 empty_world =
    Some (srtp_err_status_ok, Some 0%nat, allocated_world) /\
  exists ci t tc,
    cipher_at allocated_world 0 = Some ci /\
    deref_type (type ci) = Some t /\
    test_data t = Some tc /\
    key_length_octets tc = 30.
Proof.
  assert (srtp_aes_icm_256 ∈ cipher_types) as Hin
    by (unfold cipher_types; rewrite !elem_of_cons; auto).
  split; [exact Hin|]. split; [reflexivity|].
  destruct (alloc_binds_table_of_key_len srtp_aes_icm_256 NULL 30 0 empty_world
              (Some 0%nat) allocated_world Hin eq_refl)
    as (a & i & ci & t & tc & s & Ha & Hc & _ & Ht & _ & Htc & Hk & _).
  injection Ha as <-.
  exists ci, t, tc. split; [exact Hc|]. split; [exact Ht|]. split; [exact Htc|exact Hk].
Defined.

(** X3 on a cipher that has no context. *)
Lemma dealloc_without_context_witness :
  cipher_at stateless_world 0 = Some zero_cipher /\
  state zero_cipher = NULL /\
  exists w',
    srtp_aes_icm_openssl_dealloc (Some 0%nat) stateless_world =
      Some (srtp_err_status_ok, w') /\
    trace w' = [Ev_srtp_crypto_free 0].
Proof.
  split; [reflexivity|]. split; [reflexivity|].
  destruct (dealloc_without_context stateless_world 0 zero_cipher eq_refl eq_refl)
    as (w' & Hrun & _ & Ht & _).
  exists w'. split; [exact Hrun|exact Ht].
Defined.

(** X4 from the empty world: alloc, context_init, one set_iv, dealloc. *)
Lemma teardown_after_use_witness :
  srtp_aes_icm_openssl_alloc NULL 30 0 empty_world =
    Some (srtp_err_status_ok, Some 0%nat, allocated_world) /\
  state <$> cipher_at allocated_world 0 = Some (Some 1%nat) /\
  srtp_aes_icm_openssl_context_init (Some 1%nat) srtp_aes_icm_test_case_0_key
    allocated_world = Some (srtp_err_status_ok, example_world) /\
  reachable example_world example_world_iv /\
  exists w4,
    srtp_aes_icm_openssl_dealloc (Some 0%nat) example_world_iv =
      Some (srtp_err_status_ok, w4) /\
    released_at w4 1 = Some (Obj_icm zero_icm).
Proof.
  assert (reachable example_world example_world_iv) as Hr.
  { eapply reach_set_iv; [apply reach_here|exact set_iv_example]. }
  split; [reflexivity|]. split; [reflexivity|]. split; [reflexivity|].
  split; [exact Hr|].
  destruct (teardown_after_use NULL 30 0 empty_world 0 allocated_world 1
              srtp_aes_icm_test_case_0_key srtp_err_status_ok example_world
              example_world_iv eq_refl eq_refl eq_refl Hr)
    as (w4 & ci & Hrun & Hz & _).
  exists w4. split; [exact Hrun|exact Hz].
Defined.

(** X6 on a five-octet buffer of which three are processed. *)
Lemma encrypt_transforms_first_octets_only_witness :
  icm_at example_world_iv 1 = Some example_context_iv /\
  CTR.cipher (ctx example_context_iv) = Some EVP_aes_128_ctr /\
  0 <= 3 <= Z.of_nat (length [1; 2; 3; 4; 5]) /\
  exists out w',
    srtp_aes_icm_openssl_encrypt (Some 1%nat) [1; 2; 3; 4; 5] 3 example_world_iv =
      Some ((srtp_err_status_ok, out, 3), w') /\
    length out = 5%nat /\
    drop 3 out = [4; 5].
Proof.
  assert (0 <= 3 <= Z.of_nat (length [1; 2; 3; 4; 5])) as Hl
    by (split; by vm_compute).
  split; [reflexivity|]. split; [reflexivity|]. split; [exact Hl|].
  destruct (encrypt_transforms_first_octets_only (BC := aes) example_world_iv 1
              example_context_iv EVP_aes_128_ctr [1; 2; 3; 4; 5] 3
              eq_refl eq_refl Hl eq_refl)
    as (out & w' & Hrun & Hlen & _ & Hd & _).
  exists out, w'. split; [exact Hrun|]. split; [exact Hlen|exact Hd].
Defined.

(** X7 on the pieces 1, 2, 3 and 4, 5. *)
Lemma encrypt_in_two_pieces_witness :
  icm_at example_world_iv 1 = Some example_context_iv /\
  CTR.cipher (ctx example_context_iv) = Some EVP_aes_128_ctr /\
  exists o1 o2 w1 w2 w12,
    srtp_aes_icm_openssl_encrypt (Some 1%nat) [1; 2; 3] 3 example_world_iv =
      Some ((srtp_err_status_ok, o1, 3), w1) /\
    srtp_aes_icm_openssl_encrypt (Some 1%nat) [4; 5] 2 w1 =
      Some ((srtp_err_status_ok, o2, 2), w2) /\
    srtp_aes_icm_openssl_encrypt (Some 1%nat) [1; 2; 3; 4; 5] 5 example_world_iv =
      Some ((srtp_err_status_ok, o1 ++ o2, 5), w12).
Proof.
  split; [reflexivity|]. split; [reflexivity|].
  destruct (encrypt_in_two_pieces (BC := aes) example_world_iv 1 example_context_iv
              EVP_aes_128_ctr [1; 2; 3] [4; 5] eq_refl eq_refl eq_refl)
    as (o1 & o2 & w1 & w2 & w12 & H1 & H2 & H12 & _).
  exists o1, o2, w1, w2, w12. split; [exact H1|]. split; [exact H2|exact H12].
Defined.

(** X8 on the example context before and after an earlier set_iv. *)
Lemma set_iv_reseeds_keystream_witness :
  icm_at example_world 1 = Some example_context /\
  icm_at example_world_iv 1 = Some example_context_iv /\
  key example_context = key example_context_iv /\
  offset example_context = offset example_context_iv /\
  counter example_context <> counter example_context_iv /\
  ctx example_context <> ctx example_context_iv /\
  exists out w1' w1'' w2' w2'',
    srtp_aes_icm_openssl_set_iv (Some 1%nat) (replicate 16 0) 0 example_world =
      Some (srtp_err_status_ok, w1') /\
    srtp_aes_icm_openssl_encrypt (Some 1%nat) [1; 2; 3] 3 w1' =
      Some ((srtp_err_status_ok, out, 3), w1'') /\
    srtp_aes_icm_openssl_set_iv (Some 1%nat) (replicate 16 0) 1 example_world_iv =
      Some (srtp_err_status_ok, w2') /\
    srtp_aes_icm_openssl_encrypt (Some 1%nat) [1; 2; 3] 3 w2' =
      Some ((srtp_err_status_ok, out, 3), w2'').
Proof.
  split; [reflexivity|]. split; [reflexivity|]. split; [reflexivity|].
  split; [reflexivity|]. split; [discriminate|]. split; [discriminate|].
  exact (set_iv_reseeds_keystream (BC := aes) example_world 1 example_context
           example_world_iv 1 example_context_iv (replicate 16 0) 0 1 [1; 2; 3]
           eq_refl eq_refl eq_refl eq_refl eq_refl (or_introl eq_refl) eq_refl eq_refl).
Defined.

(** X9 on three octets. *)
Lemma encrypt_is_xor_with_keystream_witness :
  icm_at example_world_iv 1 = Some example_context_iv /\
  CTR.cipher (ctx example_context_iv) = Some EVP_aes_128_ctr /\
  exists out ks w' w'',
    srtp_aes_icm_openssl_encrypt (Some 1%nat) [1; 2; 3] 3 example_world_iv =
      Some ((srtp_err_status_ok, out, 3), w') /\
    srtp_aes_icm_openssl_encrypt (Some 1%nat) [0; 0; 0] 3 example_world_iv =
      Some ((srtp_err_status_ok, ks, 3), w'') /\
    out = zip_with Z.lxor [1; 2; 3] ks.
Proof.
  split; [reflexivity|]. split; [reflexivity|].
  destruct (encrypt_is_xor_with_keystream (BC := aes) example_world_iv 1
              example_context_iv EVP_aes_128_ctr [1; 2; 3] eq_refl eq_refl eq_refl)
    as (out & ks & w' & w'' & H1 & H2 & Hx & _).
  exists out, ks, w', w''. split; [exact H1|]. split; [exact H2|exact Hx].
Defined.

(** X10 with the example nonce and the all-zero nonce. *)
Lemma set_iv_distinct_nonces_distinct_counters_witness :
  icm_at example_world 1 = Some example_context /\
  length (offset example_context) = 16%nat /\
  length example_nonce = 16%nat /\
  exists st1 w1 s1,
    srtp_aes_icm_openssl_set_iv (Some 1%nat) example_nonce 0 example_world =
      Some (st1, w1) /\
    icm_at w1 1 = Some s1 /\
    v128_xor (offset s1) (counter s1) = example_nonce.
Proof.
  split; [reflexivity|]. split; [reflexivity|]. split; [reflexivity|].
  destruct (set_iv_distinct_nonces_distinct_counters example_world 1 example_context
              example_nonce (replicate 16 0) 0 0 eq_refl eq_refl eq_refl eq_refl)
    as (st1 & w1 & s1 & _ & _ & _ & H1 & Hs1 & _ & _ & Hx & _).
  exists st1, w1, s1. split; [exact H1|]. split; [exact Hs1|exact Hx].
Defined.

(** X11 from the empty world, after one earlier set_iv. *)
Lemma set_iv_never_bad_param_after_alloc_witness :
  srtp_aes_icm_openssl_alloc NULL 30 0 empty_world =
    Some (srtp_err_status_ok, Some 0%nat, allocated_world) /\
  srtp_aes_icm_openssl_context_init (Some 1%nat) srtp_aes_icm_test_case_0_key
    allocated_world = Some (srtp_err_status_ok, example_world) /\
  reachable example_world example_world_iv /\
  exists st' w4,
    srtp_aes_icm_openssl_set_iv (Some 1%nat) example_nonce 0 example_world_iv =
      Some (st', w4) /\
    st' <> srtp_err_status_bad_param.
Proof.
  assert (reachable example_world example_world_iv) as Hr.
  { eapply reach_set_iv; [apply reach_here|exact set_iv_example]. }
  split; [reflexivity|]. split; [reflexivity|]. split; [exact Hr|].
  destruct (set_iv_never_bad_param_after_alloc NULL 30 0 empty_world 0
              allocated_world 1 srtp_aes_icm_test_case_0_key srtp_err_status_ok
              example_world example_world_iv example_nonce 0
              eq_refl eq_refl eq_refl Hr eq_refl)
    as (st' & w4 & Hrun & Hne & _).
  exists st', w4. split; [exact Hrun|exact Hne].
Defined.

End MoreConcrete.
